(** * SalesBuildr MCP server: navigation state machine and request router

    A shallow embedding of [src/index.ts] (the list-tools and call-tool
    handlers with the session state they share), of the five domain
    modules ([domains/companies.ts], [contacts.ts], [products.ts],
    [opportunities.ts], [quotes.ts]) and of [utils/client.ts].

    JavaScript objects are finite maps from property names to values
    ([gmap string value]); the mutable module-level variables ([state],
    [_client], the process environment) and the upstream service are the
    fields of one [Process] record threaded through a state-and-exception
    monad; a [throw] is the [Throw] outcome of that monad and [try/catch]
    is [callTool]'s match on it. *)

From Stdlib Require Import ZArith String List.
From stdpp Require Import gmap strings list fin_maps.
Import ListNotations.

#[local] Set Warnings "-register-all".
#[local] Open Scope string_scope.

(** ** JavaScript values

    The values that travel through the server: request arguments and
    upstream results are JSON, and [undefined] shows up wherever a missing
    property is read.  Numbers are IEEE doubles in JavaScript; the server
    never computes with them, it only carries them, so an integer carrier
    is enough here. *)
Inductive value : Type :=
  | VUndefined
  | VNull
  | VBool (b : bool)
  | VNum (n : Z)
  | VStr (s : string)
  | VArr (xs : list value)
  | VObj (o : gmap string value).

(** [Record<string, unknown>]. *)
Abbreviation object := (gmap string value).

(** [o.k]: the property's value, [undefined] when [o] has no such property.
    (None of the names the server reads lives on [Object.prototype].) *)
Definition prop (o : object) (k : string) : value :=
  default VUndefined (o !! k).

(** [const { k: _, ...data } = o]: the own properties of [o] other than [k]. *)
Definition rest (k : string) (o : object) : object := delete k o.

(** ** Tool descriptors ([Tool] of the MCP SDK) *)
Module Tool.
Record t : Type := mk { name : string; description : string; inputSchema : value }.
End Tool.

(** Abbreviations for the JSON-schema literals of the tool tables. *)
Definition typed (ty descr : string) : value :=
  VObj {[ "type" := VStr ty; "description" := VStr descr ]}.

Definition str (descr : string) : value := typed "string" descr.
Definition num (descr : string) : value := typed "number" descr.

(** [{ type: "object", properties }], with [required] when the literal has it. *)
Definition schema (properties : object) (required : option (list string)) : value :=
  let base : object := {[ "type" := VStr "object"; "properties" := VObj properties ]} in
  VObj match required with
       | Some names => <[ "required" := VArr (map VStr names) ]> base
       | None => base
       end.

(** *** domains/companies.ts *)
Definition companyTools : list Tool.t := [
  Tool.mk "salesbuildr_companies_list"
    "Search and list companies in SalesBuildr. Returns paginated results with company details including name, domain, address, and contact info."
    (schema {[ "query" := str "Search query to filter companies by name or domain";
               "from" := num "Starting offset for pagination (default: 0)";
               "size" := num "Number of results per page (default: 25, max: 100)" ]}
            None);
  Tool.mk "salesbuildr_companies_get"
    "Get detailed information about a specific company by its ID. Returns full company profile including address, contact info, and metadata."
    (schema {[ "id" := str "The unique company ID" ]} (Some ["id"]));
  Tool.mk "salesbuildr_companies_create"
    "Create a new company in SalesBuildr. Only name is required, all other fields are optional."
    (schema {[ "name" := str "Company name (required)";
               "domain" := str "Company domain name (e.g., example.com)";
               "address" := str "Street address";
               "city" := str "City";
               "state" := str "State or province";
               "zip" := str "ZIP or postal code";
               "country" := str "Country";
               "phone" := str "Phone number";
               "website" := str "Company website URL";
               "notes" := str "Additional notes about the company" ]}
            (Some ["name"]));
  Tool.mk "salesbuildr_companies_update"
    "Update an existing company in SalesBuildr. Provide the company ID and any fields to update."
    (schema {[ "id" := str "The unique company ID (required)";
               "name" := str "Company name";
               "domain" := str "Company domain name";
               "address" := str "Street address";
               "city" := str "City";
               "state" := str "State or province";
               "zip" := str "ZIP or postal code";
               "country" := str "Country";
               "phone" := str "Phone number";
               "website" := str "Company website URL";
               "notes" := str "Additional notes" ]}
            (Some ["id"]));
  Tool.mk "salesbuildr_companies_delete"
    "Delete a company from SalesBuildr by its ID. This action cannot be undone."
    (schema {[ "id" := str "The unique company ID to delete" ]} (Some ["id"]))
].

(** *** domains/contacts.ts *)
Definition contactTools : list Tool.t := [
  Tool.mk "salesbuildr_contacts_list"
    "Search and list contacts in SalesBuildr. Optionally filter by company. Returns paginated results with contact details."
    (schema {[ "query" := str "Search query to filter contacts by name or email";
               "companyId" := str "Filter contacts by company ID";
               "from" := num "Starting offset for pagination (default: 0)";
               "size" := num "Number of results per page (default: 25, max: 100)" ]}
            None);
  Tool.mk "salesbuildr_contacts_get"
    "Get detailed information about a specific contact by their ID. Returns full contact profile including company association."
    (schema {[ "id" := str "The unique contact ID" ]} (Some ["id"]));
  Tool.mk "salesbuildr_contacts_create"
    "Create a new contact in SalesBuildr. First name and last name are required."
    (schema {[ "firstName" := str "Contact first name (required)";
               "lastName" := str "Contact last name (required)";
               "email" := str "Email address";
               "phone" := str "Phone number";
               "title" := str "Job title";
               "companyId" := str "Associated company ID";
               "notes" := str "Additional notes about the contact" ]}
            (Some ["firstName"; "lastName"]));
  Tool.mk "salesbuildr_contacts_update"
    "Update an existing contact in SalesBuildr. Provide the contact ID and any fields to update."
    (schema {[ "id" := str "The unique contact ID (required)";
               "firstName" := str "Contact first name";
               "lastName" := str "Contact last name";
               "email" := str "Email address";
               "phone" := str "Phone number";
               "title" := str "Job title";
               "companyId" := str "Associated company ID";
               "notes" := str "Additional notes" ]}
            (Some ["id"]));
  Tool.mk "salesbuildr_contacts_delete"
    "Delete a contact from SalesBuildr by their ID. This action cannot be undone."
    (schema {[ "id" := str "The unique contact ID to delete" ]} (Some ["id"]))
].

(** *** domains/products.ts *)
Definition productTools : list Tool.t := [
  Tool.mk "salesbuildr_products_list"
    "Search and list products in the SalesBuildr catalog. Returns paginated results with product details including name, SKU, pricing, and category."
    (schema {[ "query" := str "Search query to filter products by name, SKU, or category";
               "from" := num "Starting offset for pagination (default: 0)";
               "size" := num "Number of results per page (default: 25, max: 100)" ]}
            None);
  Tool.mk "salesbuildr_products_get"
    "Get detailed information about a specific product by its ID. Returns full product details including pricing, description, and vendor info."
    (schema {[ "id" := str "The unique product ID" ]} (Some ["id"]))
].

(** *** domains/opportunities.ts *)
Definition opportunityTools : list Tool.t := [
  Tool.mk "salesbuildr_opportunities_list"
    "Search and list sales opportunities in SalesBuildr. Returns paginated results with opportunity details including title, value, stage, and probability."
    (schema {[ "query" := str "Search query to filter opportunities by title";
               "from" := num "Starting offset for pagination (default: 0)";
               "size" := num "Number of results per page (default: 25, max: 100)" ]}
            None);
  Tool.mk "salesbuildr_opportunities_get"
    "Get detailed information about a specific opportunity by its ID. Returns full opportunity details including pipeline stage, value, and associated contacts."
    (schema {[ "id" := str "The unique opportunity ID" ]} (Some ["id"]));
  Tool.mk "salesbuildr_opportunities_create"
    "Create a new sales opportunity in SalesBuildr. Title is required, all other fields are optional."
    (schema {[ "title" := str "Opportunity title (required)";
               "companyId" := str "Associated company ID";
               "contactId" := str "Primary contact ID";
               "value" := num "Estimated deal value in dollars";
               "stage" := str "Pipeline stage (e.g., prospecting, qualification, proposal, negotiation, closed-won, closed-lost)";
               "probability" := num "Win probability as a percentage (0-100)";
               "expectedCloseDate" := str "Expected close date in ISO 8601 format (YYYY-MM-DD)";
               "notes" := str "Additional notes about the opportunity" ]}
            (Some ["title"]));
  Tool.mk "salesbuildr_opportunities_update"
    "Update an existing opportunity in SalesBuildr. Provide the opportunity ID and any fields to update."
    (schema {[ "id" := str "The unique opportunity ID (required)";
               "title" := str "Opportunity title";
               "companyId" := str "Associated company ID";
               "contactId" := str "Primary contact ID";
               "value" := num "Estimated deal value in dollars";
               "stage" := str "Pipeline stage";
               "probability" := num "Win probability as a percentage (0-100)";
               "expectedCloseDate" := str "Expected close date in ISO 8601 format (YYYY-MM-DD)";
               "notes" := str "Additional notes" ]}
            (Some ["id"]))
].

(** *** domains/quotes.ts *)
Definition quoteItemSchema : value :=
  schema {[ "productId" := str "Product ID from the catalog (optional)";
            "name" := str "Line item name (required)";
            "description" := str "Line item description";
            "quantity" := num "Quantity (required, default: 1)";
            "unitPrice" := num "Unit price in dollars (required)";
            "recurringPrice" := num "Recurring price per billing cycle";
            "billingCycle" := str "Billing cycle for recurring items (monthly, quarterly, annually)";
            "discount" := num "Discount percentage (0-100)" ]}
         (Some ["name"; "quantity"; "unitPrice"]).

Definition quoteTools : list Tool.t := [
  Tool.mk "salesbuildr_quotes_list"
    "Search and list quotes in SalesBuildr. Optionally filter by company or opportunity. Returns paginated results with quote details."
    (schema {[ "query" := str "Search query to filter quotes by title";
               "companyId" := str "Filter quotes by company ID";
               "opportunityId" := str "Filter quotes by opportunity ID";
               "from" := num "Starting offset for pagination (default: 0)";
               "size" := num "Number of results per page (default: 25, max: 100)" ]}
            None);
  Tool.mk "salesbuildr_quotes_get"
    "Get detailed information about a specific quote by its ID. Returns full quote details including line items, pricing, and status."
    (schema {[ "id" := str "The unique quote ID" ]} (Some ["id"]));
  Tool.mk "salesbuildr_quotes_create"
    "Create a new quote in SalesBuildr. Title is required. Optionally associate with a company, contact, and opportunity, and include line items."
    (schema {[ "title" := str "Quote title (required)";
               "companyId" := str "Associated company ID";
               "contactId" := str "Associated contact ID";
               "opportunityId" := str "Associated opportunity ID";
               "notes" := str "Additional notes for the quote";
               "validUntil" := str "Quote expiration date in ISO 8601 format (YYYY-MM-DD)";
               "items" := VObj {[ "type" := VStr "array";
                                  "description" := VStr "Line items for the quote";
                                  "items" := quoteItemSchema ]} ]}
            (Some ["title"]))
].

(** ** index.ts: domains and the two navigation tools *)

(** [type Domain]: the five string literals. *)
Inductive Domain : Type := companies | contacts | products | opportunities | quotes.

Definition allDomains : list Domain :=
  [companies; contacts; products; opportunities; quotes].

(** The string literal a [Domain] stands for. *)
Definition domainId (d : Domain) : string :=
  match d with
  | companies => "companies"
  | contacts => "contacts"
  | products => "products"
  | opportunities => "opportunities"
  | quotes => "quotes"
  end.

Definition domainDescriptions (d : Domain) : string :=
  match d with
  | companies => "Company/account management - search, create, update, delete companies"
  | contacts => "Contact management - search, create, update, delete contacts"
  | products => "Product catalog - search and view products with pricing"
  | opportunities => "Sales pipeline - search, create, update opportunities"
  | quotes => "Quote management - search, create, view quotes with line items"
  end.

(** [getDomainTools]: a [switch] on the argument with one [case] per string
    literal and no [default].  The parameter is typed [Domain], but the
    call sites pass whatever the request carried, so the model takes any
    value; [None] is the [undefined] the function returns when no case
    matches. *)
Definition getDomainTools (domain : value) : option (list Tool.t) :=
  match domain with
  | VStr s =>
      if decide (s = "companies") then Some companyTools
      else if decide (s = "contacts") then Some contactTools
      else if decide (s = "products") then Some productTools
      else if decide (s = "opportunities") then Some opportunityTools
      else if decide (s = "quotes") then Some quoteTools
      else None
  | _ => None
  end.

Definition newline : string := String (Ascii.ascii_of_nat 10) EmptyString.

Definition navigateTool : Tool.t :=
  Tool.mk "salesbuildr_navigate"
    "Navigate to a specific domain in SalesBuildr. Call this first to select which area you want to work with. After navigation, domain-specific tools will be available."
    (schema
       {[ "domain" :=
            VObj {[ "type" := VStr "string";
                    "enum" := VArr (map (fun d => VStr (domainId d)) allDomains);
                    "description" :=
                      VStr ("The domain to navigate to:" +:+ newline
                            +:+ "- companies: " +:+ domainDescriptions companies +:+ newline
                            +:+ "- contacts: " +:+ domainDescriptions contacts +:+ newline
                            +:+ "- products: " +:+ domainDescriptions products +:+ newline
                            +:+ "- opportunities: " +:+ domainDescriptions opportunities +:+ newline
                            +:+ "- quotes: " +:+ domainDescriptions quotes) ]} ]}
       (Some ["domain"])).

Definition backTool : Tool.t :=
  Tool.mk "salesbuildr_back"
    "Return to domain selection. Use this to switch to a different area of SalesBuildr."
    (schema ∅ None).

(** ** Exceptions, envelopes, upstream calls *)

(** What a [throw] carries: an [Error] (or subclass) with its [message], or
    any other value. *)
Inductive thrown : Type :=
  | JsError (message : string)
  | Thrown (v : value).

Inductive Result (A : Type) : Type :=
  | Ok (a : A)
  | Throw (e : thrown).
Arguments Ok {A} a.
Arguments Throw {A} e.

(** [{ type: "text"; text: string }] *)
Record ContentBlock : Type := { type : string; text : string }.

(** [{ content; isError? }]: [isError = None] is the absent field. *)
Record Envelope : Type := { content : list ContentBlock; isError : option bool }.

(** [{ content: [{ type: "text", text }] }] *)
Definition textEnvelope (s : string) : Envelope :=
  {| content := [ {| type := "text"; text := s |} ]; isError := None |}.

(** [{ content: [{ type: "text", text }], isError: true }] *)
Definition errorEnvelope (s : string) : Envelope :=
  {| content := [ {| type := "text"; text := s |} ]; isError := Some true |}.

(** The methods of the [SalesbuildrClient] interface (utils/types.ts). *)
Inductive Method : Type := MList | MGet | MCreate | MUpdate | MDelete.

(** One call [client.<resource>.<method>(...arguments)]. *)
Record UpstreamCall : Type :=
  Call { resource : Domain; method : Method; arguments : list value }.

(** ** What the repository does not contain

    The client package is loaded by a dynamic import and is known to the
    server only through the [SalesbuildrClient] interface: its behaviour
    is a parameter.  A client is built from an API key and talks to a
    remote service with a state of its own; each call resolves to a value
    or rejects. *)
Class Upstream : Type := {
  Remote : Type;
  perform : string -> UpstreamCall -> Remote -> Result value * Remote
}.

(** The two built-ins of the JavaScript runtime whose output depends on
    number formatting: [JSON.stringify(v, null, 2)] on an upstream result
    and [Number.prototype.toString]. *)
Class JsRuntime : Type := {
  JSON_stringify : value -> string;
  Number_toString : Z -> string
}.

Section Server.
Context `{JsRuntime} `{Upstream}.

(** [String(v)], which is also what a template literal does to [${v}]. *)
Fixpoint ToString (v : value) : string :=
  match v with
  | VUndefined => "undefined"
  | VNull => "null"
  | VBool b => if b then "true" else "false"
  | VNum n => Number_toString n
  | VStr s => s
  | VArr xs =>
      String.concat ","
        (map (fun x => match x with
                       | VUndefined | VNull => ""
                       | _ => ToString x
                       end) xs)
  | VObj _ => "[object Object]"
  end.

(** ** The process: every variable the server mutates *)

(** index.ts, [interface ServerState].  The field is declared
    [Domain | null]; what it holds at run time is whatever was assigned. *)
Record ServerState : Type := { currentDomain : value }.

(** utils/types.ts, [SalesbuildrClient]: a client remembers the key it was
    built with. *)
Record SalesbuildrClient : Type := { apiKey : string }.

Record Process : Type := {
  (** index.ts, [const state] *)
  state : ServerState;
  (** client.ts, [let _client] *)
  _client : option SalesbuildrClient;
  (** [process.env.SALESBUILDR_API_KEY] *)
  SALESBUILDR_API_KEY : option string;
  (** whether importing the client package and constructing a client succeed *)
  packageInstalled : bool;
  (** the upstream service *)
  remote : Remote;
  (** ghost: the upstream calls made so far, oldest first *)
  journal : list UpstreamCall
}.

(** The process as it is when the module has just been loaded. *)
Definition freshProcess (key : option string) (installed : bool) (r : Remote) : Process :=
  {| state := {| currentDomain := VNull |};
     _client := None;
     SALESBUILDR_API_KEY := key;
     packageInstalled := installed;
     remote := r;
     journal := [] |}.

(** ** The monad of the handlers: state and exceptions *)
Definition M (A : Type) : Type := Process -> Result A * Process.

#[global] Instance M_ret : MRet M := fun A a p => (Ok a, p).

#[global] Instance M_bind : MBind M := fun A B k m p =>
  match m p with
  | (Ok a, p') => k a p'
  | (Throw e, p') => (Throw e, p')
  end.

Definition throw {A : Type} (e : thrown) : M A := fun p => (Throw e, p).

Definition gets {A : Type} (f : Process -> A) : M A := fun p => (Ok (f p), p).

Definition modify (f : Process -> Process) : M unit := fun p => (Ok tt, f p).

(** The process with [currentDomain] replaced. *)
Definition withCurrentDomain (v : value) (p : Process) : Process :=
  {| state := {| currentDomain := v |};
     _client := _client p;
     SALESBUILDR_API_KEY := SALESBUILDR_API_KEY p;
     packageInstalled := packageInstalled p;
     remote := remote p;
     journal := journal p |}.

(** [state.currentDomain = v] *)
Definition setCurrentDomain (v : value) : M unit := modify (withCurrentDomain v).

(** [_client = c] *)
Definition setClient (c : option SalesbuildrClient) : M unit :=
  modify (fun p =>
    {| state := state p;
       _client := c;
       SALESBUILDR_API_KEY := SALESBUILDR_API_KEY p;
       packageInstalled := packageInstalled p;
       remote := remote p;
       journal := journal p |}).

(** ** utils/client.ts *)

(** [getCredentials]: [!apiKey] holds for the unset variable and for the
    empty string. *)
Definition getCredentials : M string :=
  key ← gets SALESBUILDR_API_KEY;
  match key with
  | Some k =>
      if decide (k = "")
      then throw (JsError "SALESBUILDR_API_KEY environment variable is required. Set it to your SalesBuildr API key from your account settings.")
      else mret k
  | None =>
      throw (JsError "SALESBUILDR_API_KEY environment variable is required. Set it to your SalesBuildr API key from your account settings.")
  end.

(** [getClient]: the memoised client, built on first use.  The inner
    [try/catch] turns every failure of the import or of the constructor
    into the same [Error]. *)
Definition getClient : M SalesbuildrClient :=
  memo ← gets _client;
  match memo with
  | Some c => mret c
  | None =>
      creds ← getCredentials;
      installed ← gets packageInstalled;
      if (installed : bool)
      then let c := {| apiKey := creds |} in
           setClient (Some c);; mret c
      else throw (JsError "@wyre-technology/node-salesbuildr is not installed. Install it with: npm install @wyre-technology/node-salesbuildr")
  end.

(** [resetClient] *)
Definition resetClient : M unit := setClient None.

(** [await client.<resource>.<method>(...)]: the call is made (and
    recorded), the remote service moves on, and the promise resolves or
    rejects. *)
Definition invoke (client : SalesbuildrClient) (c : UpstreamCall) : M value :=
  fun p =>
    let '(r, u) := perform (apiKey client) c (remote p) in
    (r, {| state := state p;
           _client := _client p;
           SALESBUILDR_API_KEY := SALESBUILDR_API_KEY p;
           packageInstalled := packageInstalled p;
           remote := u;
           journal := journal p ++ [c] |}).

(** ** The domain handlers

    Each handler first awaits [getClient()], then switches on the tool
    name.  [args as {...}] is a compile-time cast: the properties are read
    as they are. *)

(** domains/companies.ts *)
Definition handleCompanyTool (name : string) (args : object) : M Envelope :=
  client ← getClient;
  if decide (name = "salesbuildr_companies_list") then
    result ← invoke client
      (Call companies MList
         [VObj {[ "query" := prop args "query";
                  "from" := prop args "from";
                  "size" := prop args "size" ]}]);
    mret (textEnvelope (JSON_stringify result))
  else if decide (name = "salesbuildr_companies_get") then
    let id := prop args "id" in
    company ← invoke client (Call companies MGet [id]);
    mret (textEnvelope (JSON_stringify company))
  else if decide (name = "salesbuildr_companies_create") then
    let data := rest "id" args in
    company ← invoke client (Call companies MCreate [VObj data]);
    mret (textEnvelope (JSON_stringify company))
  else if decide (name = "salesbuildr_companies_update") then
    let id := prop args "id" in
    let data := rest "id" args in
    company ← invoke client (Call companies MUpdate [id; VObj data]);
    mret (textEnvelope (JSON_stringify company))
  else if decide (name = "salesbuildr_companies_delete") then
    let id := prop args "id" in
    invoke client (Call companies MDelete [id]);;
    mret (textEnvelope ("Company " +:+ ToString id +:+ " deleted successfully."))
  else
    mret (errorEnvelope ("Unknown company tool: " +:+ name)).

(** domains/contacts.ts *)
Definition handleContactTool (name : string) (args : object) : M Envelope :=
  client ← getClient;
  if decide (name = "salesbuildr_contacts_list") then
    result ← invoke client
      (Call contacts MList
         [VObj {[ "query" := prop args "query";
                  "companyId" := prop args "companyId";
                  "from" := prop args "from";
                  "size" := prop args "size" ]}]);
    mret (textEnvelope (JSON_stringify result))
  else if decide (name = "salesbuildr_contacts_get") then
    let id := prop args "id" in
    contact ← invoke client (Call contacts MGet [id]);
    mret (textEnvelope (JSON_stringify contact))
  else if decide (name = "salesbuildr_contacts_create") then
    let data := rest "id" args in
    contact ← invoke client (Call contacts MCreate [VObj data]);
    mret (textEnvelope (JSON_stringify contact))
  else if decide (name = "salesbuildr_contacts_update") then
    let id := prop args "id" in
    let data := rest "id" args in
    contact ← invoke client (Call contacts MUpdate [id; VObj data]);
    mret (textEnvelope (JSON_stringify contact))
  else if decide (name = "salesbuildr_contacts_delete") then
    let id := prop args "id" in
    invoke client (Call contacts MDelete [id]);;
    mret (textEnvelope ("Contact " +:+ ToString id +:+ " deleted successfully."))
  else
    mret (errorEnvelope ("Unknown contact tool: " +:+ name)).

(** domains/products.ts *)
Definition handleProductTool (name : string) (args : object) : M Envelope :=
  client ← getClient;
  if decide (name = "salesbuildr_products_list") then
    result ← invoke client
      (Call products MList
         [VObj {[ "query" := prop args "query";
                  "from" := prop args "from";
                  "size" := prop args "size" ]}]);
    mret (textEnvelope (JSON_stringify result))
  else if decide (name = "salesbuildr_products_get") then
    let id := prop args "id" in
    product ← invoke client (Call products MGet [id]);
    mret (textEnvelope (JSON_stringify product))
  else
    mret (errorEnvelope ("Unknown product tool: " +:+ name)).

(** domains/opportunities.ts *)
Definition handleOpportunityTool (name : string) (args : object) : M Envelope :=
  client ← getClient;
  if decide (name = "salesbuildr_opportunities_list") then
    result ← invoke client
      (Call opportunities MList
         [VObj {[ "query" := prop args "query";
                  "from" := prop args "from";
                  "size" := prop args "size" ]}]);
    mret (textEnvelope (JSON_stringify result))
  else if decide (name = "salesbuildr_opportunities_get") then
    let id := prop args "id" in
    opportunity ← invoke client (Call opportunities MGet [id]);
    mret (textEnvelope (JSON_stringify opportunity))
  else if decide (name = "salesbuildr_opportunities_create") then
    let data := rest "id" args in
    opportunity ← invoke client (Call opportunities MCreate [VObj data]);
    mret (textEnvelope (JSON_stringify opportunity))
  else if decide (name = "salesbuildr_opportunities_update") then
    let id := prop args "id" in
    let data := rest "id" args in
    opportunity ← invoke client (Call opportunities MUpdate [id; VObj data]);
    mret (textEnvelope (JSON_stringify opportunity))
  else
    mret (errorEnvelope ("Unknown opportunity tool: " +:+ name)).

(** domains/quotes.ts *)
Definition handleQuoteTool (name : string) (args : object) : M Envelope :=
  client ← getClient;
  if decide (name = "salesbuildr_quotes_list") then
    result ← invoke client
      (Call quotes MList
         [VObj {[ "query" := prop args "query";
                  "companyId" := prop args "companyId";
                  "opportunityId" := prop args "opportunityId";
                  "from" := prop args "from";
                  "size" := prop args "size" ]}]);
    mret (textEnvelope (JSON_stringify result))
  else if decide (name = "salesbuildr_quotes_get") then
    let id := prop args "id" in
    quote ← invoke client (Call quotes MGet [id]);
    mret (textEnvelope (JSON_stringify quote))
  else if decide (name = "salesbuildr_quotes_create") then
    let data := rest "id" args in
    quote ← invoke client (Call quotes MCreate [VObj data]);
    mret (textEnvelope (JSON_stringify quote))
  else
    mret (errorEnvelope ("Unknown quote tool: " +:+ name)).

(** ** index.ts: the two request handlers *)

(** The [ListToolsRequestSchema] handler.  Spreading the [undefined] that
    [getDomainTools] returns for an unknown domain is a [TypeError] (the
    message is V8's; the handler has no [try/catch]). *)
Definition listTools : M (list Tool.t) :=
  cur ← gets (fun p => currentDomain (state p));
  match cur with
  | VNull => mret [navigateTool]
  | _ =>
      match getDomainTools cur with
      | Some domainTools => mret (backTool :: domainTools)
      | None => throw (JsError "Spread syntax requires ...iterable[Symbol.iterator] to be a function")
      end
  end.

(** The namespace prefix the router tests a tool name against. *)
Definition domainPrefix (d : Domain) : string :=
  match d with
  | companies => "salesbuildr_companies_"
  | contacts => "salesbuildr_contacts_"
  | products => "salesbuildr_products_"
  | opportunities => "salesbuildr_opportunities_"
  | quotes => "salesbuildr_quotes_"
  end.

Definition domainHandler (d : Domain) : string -> object -> M Envelope :=
  match d with
  | companies => handleCompanyTool
  | contacts => handleContactTool
  | products => handleProductTool
  | opportunities => handleOpportunityTool
  | quotes => handleQuoteTool
  end.

(** The body of the [try] block of the [CallToolRequestSchema] handler.
    [args] is [request.params.arguments], which a request may omit.  The
    two [TypeError] messages are V8's. *)
Definition callToolBody (name : string) (args : option object) : M Envelope :=
  if decide (name = "salesbuildr_navigate") then
    match args with
    | None => throw (JsError "Cannot destructure property 'domain' of 'args' as it is undefined.")
    | Some a =>
        let domain := prop a "domain" in
        setCurrentDomain domain;;
        match getDomainTools domain with
        | None => throw (JsError "Cannot read properties of undefined (reading 'map')")
        | Some domainTools =>
            let toolNames := String.concat ", " (map Tool.name domainTools) in
            mret (textEnvelope ("Navigated to " +:+ ToString domain
                                +:+ " domain. Available tools: " +:+ toolNames))
        end
    end
  else if decide (name = "salesbuildr_back") then
    setCurrentDomain VNull;;
    mret (textEnvelope "Returned to domain selection. Use salesbuildr_navigate to select a domain: companies, contacts, products, opportunities, quotes")
  else
    let toolArgs : object := default ∅ args in
    if String.prefix (domainPrefix companies) name then handleCompanyTool name toolArgs
    else if String.prefix (domainPrefix contacts) name then handleContactTool name toolArgs
    else if String.prefix (domainPrefix products) name then handleProductTool name toolArgs
    else if String.prefix (domainPrefix opportunities) name then handleOpportunityTool name toolArgs
    else if String.prefix (domainPrefix quotes) name then handleQuoteTool name toolArgs
    else
      mret (errorEnvelope ("Unknown tool: " +:+ name
                           +:+ ". Use salesbuildr_navigate to select a domain first.")).

(** [error instanceof Error ? error.message : String(error)] *)
Definition errorMessage (error : thrown) : string :=
  match error with
  | JsError message => message
  | Thrown v => ToString v
  end.

(** The [CallToolRequestSchema] handler: the [try] body with its [catch]. *)
Definition callTool (name : string) (args : option object) (p : Process)
  : Envelope * Process :=
  match callToolBody name args p with
  | (Ok envelope, p') => (envelope, p')
  | (Throw error, p') => (errorEnvelope ("Error: " +:+ errorMessage error), p')
  end.

(** ** Sessions: requests handled one after the other *)
Inductive Request : Type :=
  | ListToolsRequest
  | CallToolRequest (name : string) (args : option object).

(** The process after a request. *)
Definition step (p : Process) (r : Request) : Process :=
  match r with
  | ListToolsRequest => snd (listTools p)
  | CallToolRequest name args => snd (callTool name args p)
  end.

Definition run (rs : list Request) (p : Process) : Process := fold_left step rs p.

(** [{ domain: d }] and the two navigation requests. *)
Definition navigate (d : Domain) : Request :=
  CallToolRequest "salesbuildr_navigate" (Some {[ "domain" := VStr (domainId d) ]}).

Definition back : Request := CallToolRequest "salesbuildr_back" (Some ∅).

End Server.

(** ** Vocabulary of the properties *)

(** The tool table registered for a domain. *)
Definition registeredTools (d : Domain) : list Tool.t :=
  match d with
  | companies => companyTools
  | contacts => contactTools
  | products => productTools
  | opportunities => opportunityTools
  | quotes => quoteTools
  end.

(** A value is one of the five domain identifiers. *)
Definition registered (v : value) : bool :=
  match v with
  | VStr s => bool_decide (s ∈ map domainId allDomains)
  | _ => false
  end.

(** [currentDomain] is [null] or a registered domain. *)
Definition validDomain (v : value) : bool :=
  match v with
  | VNull => true
  | _ => registered v
  end.

(** A request respects the navigation tool's input contract: a navigate
    call that carries arguments carries a registered domain. *)
Definition conforming (r : Request) : bool :=
  match r with
  | CallToolRequest name (Some a) =>
      if decide (name = "salesbuildr_navigate") then registered (prop a "domain") else true
  | _ => true
  end.

(** [getClient()] will resolve: a client is memoised, or one can be built. *)
Definition clientAvailable `{Upstream} (p : Process) : bool :=
  match _client p with
  | Some _ => true
  | None =>
      match SALESBUILDR_API_KEY p with
      | Some k => negb (bool_decide (k = "")) && packageInstalled p
      | None => false
      end
  end.

(** Every tool name the server knows: the two navigation tools and the
    tools of the five tables. *)
Definition knownNames : list string :=
  map Tool.name (navigateTool :: backTool :: concat (map registeredTools allDomains)).

(** The name of a domain's tool for a verb, and whether the domain's table
    has it. *)
Definition toolName (d : Domain) (verb : string) : string := domainPrefix d +:+ verb.

Definition hasTool (d : Domain) (verb : string) : bool :=
  bool_decide (toolName d verb ∈ map Tool.name (registeredTools d)).

(** The names list-tools shows in a process (none when the handler throws). *)
Definition visibleNames `{Upstream} (p : Process) : list string :=
  match fst (listTools p) with
  | Ok tools => map Tool.name tools
  | Throw _ => []
  end.

(** ** A sample platform for the worked examples: a service without state
    that answers every call with an empty object. *)
Definition sampleUpstream : Upstream :=
  {| Remote := unit; perform := fun _ _ u => (Ok (VObj ∅), u) |}.

Definition sampleRuntime : JsRuntime :=
  {| JSON_stringify := fun _ => "{}"; Number_toString := fun _ => "0" |}.

(** A service that rejects every call. *)
Definition failingUpstream : Upstream :=
  {| Remote := unit;
     perform := fun _ _ u => (Throw (JsError "503 Service Unavailable"), u) |}.

(** The sample process at start-up, with a key set and the package installed. *)
Definition sampleProcess : @Process sampleUpstream :=
  @freshProcess sampleUpstream (Some "key") true tt.

(** The sample process positioned in the contacts domain. *)
Definition sampleInContacts : @Process sampleUpstream :=
  @withCurrentDomain sampleUpstream (VStr "contacts") sampleProcess.

(** A session that enters the quotes domain, reads a quote, lists the
    tools and goes back. *)
Definition sampleSession : list Request :=
  [ navigate quotes;
    CallToolRequest "salesbuildr_quotes_get" (Some {[ "id" := VStr "q1" ]});
    ListToolsRequest;
    back ].

(** A navigate call whose domain is not one of the five. *)
Definition navigateInvoices : Request :=
  CallToolRequest "salesbuildr_navigate" (Some {[ "domain" := VStr "invoices" ]}).

(** [{ id: "x", name: "Acme" }] and [{ id: "42", name: "X" }] *)
Definition acmeArgs : object := {[ "id" := VStr "x"; "name" := VStr "Acme" ]}.

Definition renameArgs : object := {[ "id" := VStr "42"; "name" := VStr "X" ]}.

(** ** index.ts: the HTTP shell around the MCP transport

    The request listener of [startHttpTransport] and the two settings it
    closes over.  What the listener reads of a request is the path of its
    URL ([new URL(req.url || "/", ...).pathname]) and one header; what it
    does is answer with a status and a JSON body, or hand the request to
    the MCP transport.  Log lines are left out. *)

(** [v || dflt] on an environment variable: unset and empty both give [dflt]. *)
Definition orElse (v : option string) (dflt : string) : string :=
  match v with
  | Some s => if decide (s = "") then dflt else s
  | None => dflt
  end.

(** [(process.env.AUTH_MODE as AuthMode) || "env"] and
    [authMode === "gateway"] *)
Definition authMode (AUTH_MODE : option string) : string := orElse AUTH_MODE "env".

Definition isGatewayMode (AUTH_MODE : option string) : bool :=
  bool_decide (authMode AUTH_MODE = "gateway").

(** [main]: [(process.env.MCP_TRANSPORT as TransportType) || "stdio"], then
    HTTP when that is ["http"] and stdio otherwise. *)
Inductive Transport : Type := StdioTransport | HttpTransport.

Definition main (MCP_TRANSPORT : option string) : Transport :=
  let transportType := orElse MCP_TRANSPORT "stdio" in
  if decide (transportType = "http") then HttpTransport else StdioTransport.

Record HttpRequest : Type := {
  (** [url.pathname] *)
  pathname : string;
  (** [req.headers["x-salesbuildr-api-key"]] *)
  x_salesbuildr_api_key : option string
}.

Inductive HttpOutcome : Type :=
  (** [res.writeHead(status, { "Content-Type": "application/json" })] and
      [res.end(JSON.stringify(body))] *)
  | Respond (status : Z) (body : value)
  (** [transport.handleRequest(req, res)] *)
  | HandleRequest.

Section HttpShell.
Context `{Upstream}.

(** [process.env.SALESBUILDR_API_KEY = k] *)
Definition setApiKey (k : string) : M unit :=
  modify (fun p =>
    {| state := state p;
       _client := _client p;
       SALESBUILDR_API_KEY := Some k;
       packageInstalled := packageInstalled p;
       remote := remote p;
       journal := journal p |}).

(** The listener passed to [createServer].  [timestamp] is
    [new Date().toISOString()]. *)
Definition requestListener (AUTH_MODE : option string) (timestamp : string)
    (req : HttpRequest) : M HttpOutcome :=
  if decide (pathname req = "/health") then
    mret (Respond 200
            (VObj {[ "status" := VStr "ok";
                     "transport" := VStr "http";
                     "authMode" := VStr (if isGatewayMode AUTH_MODE then "gateway" else "env");
                     "timestamp" := VStr timestamp ]}))
  else if decide (pathname req = "/mcp") then
    if isGatewayMode AUTH_MODE then
      match x_salesbuildr_api_key req with
      | Some apiKey =>
          if decide (apiKey = "")
          then mret (Respond 401
                       (VObj {[ "error" := VStr "Missing credentials";
                                "message" := VStr "Gateway mode requires X-Salesbuildr-API-Key header";
                                "required" := VArr [VStr "X-Salesbuildr-API-Key"] ]}))
          else resetClient;; setApiKey apiKey;; mret HandleRequest
      | None =>
          mret (Respond 401
                  (VObj {[ "error" := VStr "Missing credentials";
                           "message" := VStr "Gateway mode requires X-Salesbuildr-API-Key header";
                           "required" := VArr [VStr "X-Salesbuildr-API-Key"] ]}))
      end
    else mret HandleRequest
  else
    mret (Respond 404
            (VObj {[ "error" := VStr "Not found";
                     "endpoints" := VArr [VStr "/mcp"; VStr "/health"] ]})).

End HttpShell.

(** ** More vocabulary *)

(** The key the next upstream call will carry: the memoised client's, or
    the environment's when a client can be built from it. *)
Definition effectiveKey `{Upstream} (p : Process) : option string :=
  match _client p with
  | Some c => Some (apiKey c)
  | None =>
      match SALESBUILDR_API_KEY p with
      | Some k => if decide (k = "") then None
                  else if packageInstalled p then Some k else None
      | None => None
      end
  end.

(** The process once a client for [key] is memoised. *)
Definition withClient `{Upstream} (key : string) (p : Process) : Process :=
  {| state := state p;
     _client := Some {| apiKey := key |};
     SALESBUILDR_API_KEY := SALESBUILDR_API_KEY p;
     packageInstalled := packageInstalled p;
     remote := remote p;
     journal := journal p |}.

(** The object a list tool passes upstream, by domain. *)
Definition listParams (d : Domain) (args : object) : object :=
  match d with
  | companies | products | opportunities =>
      {[ "query" := prop args "query";
         "from" := prop args "from";
         "size" := prop args "size" ]}
  | contacts =>
      {[ "query" := prop args "query";
         "companyId" := prop args "companyId";
         "from" := prop args "from";
         "size" := prop args "size" ]}
  | quotes =>
      {[ "query" := prop args "query";
         "companyId" := prop args "companyId";
         "opportunityId" := prop args "opportunityId";
         "from" := prop args "from";
         "size" := prop args "size" ]}
  end.

(** The property names a tool's input schema declares. *)
Definition declaredProperties (t : Tool.t) : gset string :=
  match Tool.inputSchema t with
  | VObj o =>
      match o !! "properties" with
      | Some (VObj props) => dom props
      | _ => ∅
      end
  | _ => ∅
  end.

(** A request is one of the two navigation calls. *)
Definition isNavigation (r : Request) : bool :=
  match r with
  | CallToolRequest name _ =>
      bool_decide (name = "salesbuildr_navigate") || bool_decide (name = "salesbuildr_back")
  | ListToolsRequest => false
  end.

(** The verb a client method is exposed under, and the noun a handler uses
    for its domain in the answer to an unknown tool. *)
Definition verbOf (m : Method) : string :=
  match m with
  | MList => "list"
  | MGet => "get"
  | MCreate => "create"
  | MUpdate => "update"
  | MDelete => "delete"
  end.

Definition handlerNoun (d : Domain) : string :=
  match d with
  | companies => "company"
  | contacts => "contact"
  | products => "product"
  | opportunities => "opportunity"
  | quotes => "quote"
  end.

(** The noun in a delete tool's confirmation. *)
Definition deletedNoun (d : Domain) : string :=
  match d with
  | companies => "Company"
  | contacts => "Contact"
  | _ => ""
  end.

(** ** More samples *)

(** The sample process with a client memoised for the key of tenant A, and
    the same after the environment key was changed. *)
Definition tenantAProcess : @Process sampleUpstream :=
  @withClient sampleUpstream "tenant-a" sampleProcess.

Definition rotatedProcess : @Process sampleUpstream :=
  snd (@setApiKey sampleUpstream "tenant-b" tenantAProcess).

(** A process started without an API key. *)
Definition keylessProcess : @Process sampleUpstream :=
  @freshProcess sampleUpstream None true tt.

(** A session that goes astray, enters quotes, and works there. *)
Definition strayQuotesSession : list Request * list Request :=
  ([ CallToolRequest "salesbuildr_navigate" (Some {[ "domain" := VStr "invoices" ]}) ],
   [ ListToolsRequest;
     CallToolRequest "salesbuildr_quotes_get" (Some {[ "id" := VStr "q1" ]});
     CallToolRequest "salesbuildr_invoices_list" None ]).

(** [{ query: "ann", limit: 5 }] *)
Definition searchArgs : object := {[ "query" := VStr "ann"; "limit" := VNum 5 ]}.

(** * Properties *)

#[local] Open Scope list_scope.

Section Properties.
Context `{JsRuntime} `{Upstream}.

(** ** The tool tables and the domain identifiers *)

Lemma getDomainTools_registered (d : Domain) :
  getDomainTools (VStr (domainId d)) = Some (registeredTools d).
Proof. destruct d; reflexivity. Qed.

Lemma registered_domainId (d : Domain) : registered (VStr (domainId d)) = true.
Proof. destruct d; reflexivity. Qed.

Lemma registered_inv (v : value) :
  registered v = true -> exists d, v = VStr (domainId d).
Proof.
  destruct v as [| | | |s| |]; simpl; try discriminate.
  intros Hs. apply bool_decide_eq_true_1 in Hs.
  repeat (apply elem_of_cons in Hs as [->|Hs]);
    [ by exists companies | by exists contacts | by exists products
    | by exists opportunities | by exists quotes | by apply elem_of_nil in Hs ].
Qed.

Lemma validDomain_domainId (d : Domain) : validDomain (VStr (domainId d)) = true.
Proof. apply registered_domainId. Qed.

(** ** Code that neither reads nor writes the session state

    A computation is [oblivious] when running it in a process whose
    [currentDomain] was replaced gives the same outcome and the same final
    process, up to that replacement. *)
Definition oblivious {A : Type} (m : M A) : Prop :=
  forall v p, m (withCurrentDomain v p) = (fst (m p), withCurrentDomain v (snd (m p))).

Lemma oblivious_ret {A : Type} (a : A) : oblivious (mret a).
Proof. by intros v p. Qed.

Lemma oblivious_throw {A : Type} (e : thrown) : oblivious (throw (A := A) e).
Proof. by intros v p. Qed.

Lemma oblivious_bind {A B : Type} (m : M A) (k : A -> M B) :
  oblivious m -> (forall a, oblivious (k a)) -> oblivious (m ≫= k).
Proof.
  intros Hm Hk v p. unfold mbind, M_bind. rewrite Hm.
  destruct (m p) as [[a|e] p']; simpl; [apply Hk | reflexivity].
Qed.

Lemma oblivious_gets {A : Type} (f : Process -> A) :
  (forall v p, f (withCurrentDomain v p) = f p) -> oblivious (gets f).
Proof. intros Hf v p. unfold gets. simpl. by rewrite Hf. Qed.

Lemma oblivious_setClient (c : option SalesbuildrClient) : oblivious (setClient c).
Proof. by intros v p. Qed.

Lemma oblivious_invoke (client : SalesbuildrClient) (c : UpstreamCall) :
  oblivious (invoke client c).
Proof.
  intros v p. unfold invoke. simpl.
  by destruct (perform (apiKey client) c (remote p)).
Qed.

Create HintDb oblivious.
#[local] Hint Resolve oblivious_ret oblivious_throw oblivious_setClient
  oblivious_invoke : oblivious.

Ltac solve_oblivious :=
  repeat first
    [ progress eauto with oblivious
    | apply oblivious_bind; [| intros ?]
    | apply oblivious_gets; reflexivity
    | case_decide
    | case_match ].

Lemma oblivious_getCredentials : oblivious getCredentials.
Proof. unfold getCredentials. solve_oblivious. Qed.

#[local] Hint Resolve oblivious_getCredentials : oblivious.

Lemma oblivious_getClient : oblivious getClient.
Proof. unfold getClient. solve_oblivious. Qed.

#[local] Hint Resolve oblivious_getClient : oblivious.

Lemma oblivious_domainHandler (d : Domain) (name : string) (args : object) :
  oblivious (domainHandler d name args).
Proof.
  destruct d; simpl;
    [ unfold handleCompanyTool | unfold handleContactTool | unfold handleProductTool
    | unfold handleOpportunityTool | unfold handleQuoteTool ];
    solve_oblivious.
Qed.

(** An oblivious computation leaves the session state as it found it. *)
Lemma oblivious_frame {A : Type} (m : M A) (p : Process) :
  oblivious m -> state (snd (m p)) = state p.
Proof.
  intros Hm. specialize (Hm (currentDomain (state p)) p).
  assert (Hp : withCurrentDomain (currentDomain (state p)) p = p)
    by (by destruct p as [[?] ? ? ? ? ?]).
  rewrite Hp in Hm. rewrite Hm at 1. simpl. by destruct (state p).
Qed.

(** ** Routing by prefix *)

Lemma prefix_app (pre s : string) :
  String.prefix pre s = true -> exists t, s = pre +:+ t.
Proof.
  revert s. induction pre as [|a pre IH]; intros s Hs.
  - by exists s.
  - destruct s as [|b s]; simpl in Hs; [discriminate|].
    destruct (Ascii.ascii_dec a b) as [->|]; [|discriminate].
    destruct (IH s Hs) as [t ->]. by exists t.
Qed.

(** A name with a domain's prefix reaches that domain's handler, with the
    arguments of the request (an empty object when it has none). *)
Lemma route_domain (d : Domain) (name : string) (args : option object) :
  String.prefix (domainPrefix d) name = true ->
  callToolBody name args = domainHandler d name (default ∅ args).
Proof.
  intros Hpre. apply prefix_app in Hpre as [t ->].
  unfold callToolBody. destruct d; simpl; by destruct t.
Qed.

(** A name that is reserved or has no domain's prefix reaches no handler. *)
Lemma route_unknown (name : string) (args : option object) :
  name <> "salesbuildr_navigate" -> name <> "salesbuildr_back" ->
  (forall d, String.prefix (domainPrefix d) name = false) ->
  callToolBody name args =
    mret (errorEnvelope ("Unknown tool: " +:+ name
                         +:+ ". Use salesbuildr_navigate to select a domain first.")).
Proof.
  intros Hnav Hback Hpre. unfold callToolBody.
  rewrite !decide_False by done.
  by rewrite (Hpre companies), (Hpre contacts), (Hpre products),
    (Hpre opportunities), (Hpre quotes).
Qed.

(** Away from the two navigation names the router is oblivious. *)
Lemma oblivious_callToolBody (name : string) (args : option object) :
  name <> "salesbuildr_navigate" -> name <> "salesbuildr_back" ->
  oblivious (callToolBody name args).
Proof.
  intros Hnav Hback.
  destruct (String.prefix (domainPrefix companies) name) eqn:E1;
    [rewrite (route_domain companies) by done; apply oblivious_domainHandler|].
  destruct (String.prefix (domainPrefix contacts) name) eqn:E2;
    [rewrite (route_domain contacts) by done; apply oblivious_domainHandler|].
  destruct (String.prefix (domainPrefix products) name) eqn:E3;
    [rewrite (route_domain products) by done; apply oblivious_domainHandler|].
  destruct (String.prefix (domainPrefix opportunities) name) eqn:E4;
    [rewrite (route_domain opportunities) by done; apply oblivious_domainHandler|].
  destruct (String.prefix (domainPrefix quotes) name) eqn:E5;
    [rewrite (route_domain quotes) by done; apply oblivious_domainHandler|].
  rewrite route_unknown; [apply oblivious_ret | done | done |].
  by intros [].
Qed.

(** ** The catch clause *)

Lemma callTool_ok (name : string) (args : option object) (p p' : Process) (e : Envelope) :
  callToolBody name args p = (Ok e, p') -> callTool name args p = (e, p').
Proof. unfold callTool. by intros ->. Qed.

Lemma callTool_throw (name : string) (args : option object) (p p' : Process) (e : thrown) :
  callToolBody name args p = (Throw e, p') ->
  callTool name args p = (errorEnvelope ("Error: " +:+ errorMessage e), p').
Proof. unfold callTool. by intros ->. Qed.

Lemma callTool_process (name : string) (args : option object) (p : Process) :
  snd (callTool name args p) = snd (callToolBody name args p).
Proof. unfold callTool. by destruct (callToolBody name args p) as [[e|e] p']. Qed.

(** C10: a call-tool request whose name is neither [salesbuildr_navigate]
    nor [salesbuildr_back] leaves the session state ([currentDomain]) as it
    was, whatever the name and the arguments are and whatever the handler
    does (success, upstream failure, unknown verb, unknown tool). *)
Theorem callTool_frame (name : string) (args : option object) (p : Process) :
  name <> "salesbuildr_navigate" -> name <> "salesbuildr_back" ->
  state (snd (callTool name args p)) = state p.
Proof.
  intros Hnav Hback. rewrite callTool_process.
  by apply oblivious_frame, oblivious_callToolBody.
Qed.

(** C7: a name that is neither reserved nor prefixed by a registered
    domain's namespace gets the error envelope that names the tool and
    tells the caller to navigate first, and the process (the session state
    with it) is unchanged. *)
Theorem callTool_unknown (name : string) (args : option object) (p : Process) :
  name <> "salesbuildr_navigate" -> name <> "salesbuildr_back" ->
  (forall d, String.prefix (domainPrefix d) name = false) ->
  callTool name args p =
    ({| content := [ {| type := "text";
                        text := "Unknown tool: " +:+ name
                                +:+ ". Use salesbuildr_navigate to select a domain first." |} ];
        isError := Some true |}, p).
Proof.
  intros Hnav Hback Hpre. apply callTool_ok.
  by rewrite route_unknown.
Qed.

(** C4: a name with a registered domain's prefix is delegated to that
    domain's handler with the arguments of the request, in every session
    state; an envelope the handler returns is the router's answer, and the
    answer is the same whatever [currentDomain] holds. *)
Theorem callTool_dispatch (d : Domain) (name : string) (args : option object) (p : Process) :
  String.prefix (domainPrefix d) name = true ->
  callTool name args p =
    match domainHandler d name (default ∅ args) p with
    | (Ok envelope, p') => (envelope, p')
    | (Throw e, p') => (errorEnvelope ("Error: " +:+ errorMessage e), p')
    end
  /\ forall v,
       callTool name args (withCurrentDomain v p) =
         (fst (callTool name args p), withCurrentDomain v (snd (callTool name args p))).
Proof.
  intros Hpre. unfold callTool. rewrite (route_domain d) by done.
  split; [reflexivity|]. intros v.
  rewrite (oblivious_domainHandler d name (default ∅ args) v p).
  by destruct (domainHandler d name (default ∅ args) p) as [[e|e] p'].
Qed.

(** ** The upstream calls a handler makes *)

Lemma getClient_cases (p : Process) :
  (clientAvailable p = true /\
   exists c p', getClient p = (Ok c, p') /\ journal p' = journal p /\ remote p' = remote p)
  \/ (clientAvailable p = false /\ exists e, getClient p = (Throw e, p)).
Proof.
  unfold clientAvailable, getClient, getCredentials, mbind, M_bind, gets, setClient,
    modify, throw. simpl.
  destruct (_client p) as [c|]; [left; eauto 10|].
  destruct (SALESBUILDR_API_KEY p) as [k|]; [|right; eauto].
  case_decide as Hk; [rewrite bool_decide_eq_true_2 by done; right; eauto|].
  rewrite bool_decide_eq_false_2 by done. simpl.
  destruct (packageInstalled p); [left; eauto 10|right; eauto].
Qed.

Lemma invoke_journal (client : SalesbuildrClient) (c : UpstreamCall) (p : Process) :
  journal (snd (invoke client c p)) = journal p ++ [c].
Proof. unfold invoke. by destruct (perform (apiKey client) c (remote p)). Qed.

(** What a handler that makes the single call [c] after [getClient()]
    leaves in the journal. *)
Lemma single_call_journal {A : Type} (c : UpstreamCall) (k : value -> A) (p : Process) :
  exists calls,
    journal (snd ((client ← getClient; r ← invoke client c; mret (k r)) p))
      = journal p ++ calls /\
    (clientAvailable p = true -> length calls = 1) /\
    (forall x, x ∈ calls -> x = c).
Proof.
  unfold mbind at 1. unfold M_bind.
  destruct (getClient_cases p) as [(Hav & client & p' & -> & Hj & _)|(Hav & e & ->)].
  - exists [c]. split; [|split].
    + unfold mbind, M_bind. pose proof (invoke_journal client c p') as Hi.
      destruct (invoke client c p') as [[r|e] p'']; simpl in *; by rewrite Hi, Hj.
    + done.
    + by intros x ->%list_elem_of_singleton.
  - exists []. simpl. split; [by rewrite app_nil_r|]. split; [by rewrite Hav|].
    by intros x ?%elem_of_nil.
Qed.

Lemma prefix_toolName (d : Domain) (verb : string) :
  String.prefix (domainPrefix d) (toolName d verb) = true.
Proof. unfold toolName. destruct d; simpl; by destruct verb. Qed.

(** The create branch of a handler, for the four domains that have one. *)
Lemma create_handler (d : Domain) (args : object) :
  hasTool d "create" = true ->
  domainHandler d (toolName d "create") args =
    (client ← getClient;
     created ← invoke client (Call d MCreate [VObj (rest "id" args)]);
     mret (textEnvelope (JSON_stringify created))).
Proof. destruct d; intros Hd; try discriminate Hd; reflexivity. Qed.

(** The update branch of a handler, for the three domains that have one. *)
Lemma update_handler (d : Domain) (args : object) :
  hasTool d "update" = true ->
  domainHandler d (toolName d "update") args =
    (client ← getClient;
     updated ← invoke client (Call d MUpdate [prop args "id"; VObj (rest "id" args)]);
     mret (textEnvelope (JSON_stringify updated))).
Proof. destruct d; intros Hd; try discriminate Hd; reflexivity. Qed.

Lemma rest_lookup_same (k : string) (o : object) : rest k o !! k = None.
Proof. apply lookup_delete_eq. Qed.

Lemma rest_lookup_other (k k' : string) (o : object) :
  k' <> k -> rest k o !! k' = o !! k'.
Proof. intros Hk. by apply lookup_delete_ne. Qed.

(** C5: a create tool called with any argument bag makes at most one
    upstream call (exactly one once a client is available), a [create] on
    the tool's resource whose single argument is an object without an [id]
    property and with every other property of the bag unchanged. *)
Theorem create_strips_id (d : Domain) (args : object) (p : Process) :
  hasTool d "create" = true ->
  exists calls,
    journal (snd (callTool (toolName d "create") (Some args) p)) = journal p ++ calls /\
    (clientAvailable p = true -> length calls = 1) /\
    forall c, c ∈ calls ->
      exists data : object,
        c = Call d MCreate [VObj data] /\
        data !! "id" = None /\
        (forall k, k <> "id" -> data !! k = args !! k).
Proof.
  intros Hd. rewrite callTool_process, (route_domain d) by apply prefix_toolName.
  simpl. rewrite create_handler by done.
  destruct (single_call_journal
              (Call d MCreate [VObj (rest "id" args)])
              (fun created => textEnvelope (JSON_stringify created)) p)
    as (calls & Hj & Hlen & Hcalls).
  exists calls. split; [exact Hj|]. split; [exact Hlen|].
  intros c Hc. exists (rest "id" args). split; [|split].
  - by apply Hcalls.
  - apply rest_lookup_same.
  - intros k Hk. by apply rest_lookup_other.
Qed.

(** C6: an update tool called with a bag that has an [id] makes at most
    one upstream call (exactly one once a client is available), an
    [update] on the tool's resource whose first argument is that [id] and
    whose second is an object without an [id] property and with every
    other property of the bag unchanged. *)
Theorem update_separates_id (d : Domain) (args : object) (id : value) (p : Process) :
  hasTool d "update" = true ->
  args !! "id" = Some id ->
  exists calls,
    journal (snd (callTool (toolName d "update") (Some args) p)) = journal p ++ calls /\
    (clientAvailable p = true -> length calls = 1) /\
    forall c, c ∈ calls ->
      exists data : object,
        c = Call d MUpdate [id; VObj data] /\
        data !! "id" = None /\
        (forall k, k <> "id" -> data !! k = args !! k).
Proof.
  intros Hd Hid. rewrite callTool_process, (route_domain d) by apply prefix_toolName.
  simpl. rewrite update_handler by done.
  assert (Hprop : prop args "id" = id) by (unfold prop; by rewrite Hid).
  rewrite Hprop.
  destruct (single_call_journal
              (Call d MUpdate [id; VObj (rest "id" args)])
              (fun updated => textEnvelope (JSON_stringify updated)) p)
    as (calls & Hj & Hlen & Hcalls).
  exists calls. split; [exact Hj|]. split; [exact Hlen|].
  intros c Hc. exists (rest "id" args). split; [|split].
  - by apply Hcalls.
  - apply rest_lookup_same.
  - intros k Hk. by apply rest_lookup_other.
Qed.

(** ** Navigation *)

Lemma callTool_navigate (a : object) (d : Domain) (p : Process) :
  a !! "domain" = Some (VStr (domainId d)) ->
  callTool "salesbuildr_navigate" (Some a) p =
    (textEnvelope ("Navigated to " +:+ domainId d +:+ " domain. Available tools: "
                   +:+ String.concat ", " (map Tool.name (registeredTools d))),
     withCurrentDomain (VStr (domainId d)) p).
Proof.
  intros Hd.
  assert (Hprop : prop a "domain" = VStr (domainId d)) by (unfold prop; by rewrite Hd).
  unfold callTool, callToolBody. rewrite decide_True by done. cbv zeta.
  rewrite Hprop. unfold mbind, M_bind, setCurrentDomain, modify.
  by rewrite getDomainTools_registered.
Qed.

Lemma callTool_back (args : option object) (p : Process) :
  callTool "salesbuildr_back" args p =
    (textEnvelope "Returned to domain selection. Use salesbuildr_navigate to select a domain: companies, contacts, products, opportunities, quotes",
     withCurrentDomain VNull p).
Proof. reflexivity. Qed.

Lemma step_navigate (d : Domain) (p : Process) :
  step p (navigate d) = withCurrentDomain (VStr (domainId d)) p.
Proof.
  unfold step, navigate. rewrite (callTool_navigate _ d); [done|].
  apply lookup_singleton_eq.
Qed.

Lemma step_back (p : Process) : step p back = withCurrentDomain VNull p.
Proof. reflexivity. Qed.

Lemma listTools_process (p : Process) : snd (listTools p) = p.
Proof.
  unfold listTools, mbind, M_bind, gets. simpl.
  destruct (currentDomain (state p)); try done;
    by destruct (getDomainTools _).
Qed.

Lemma listTools_root (p : Process) :
  currentDomain (state p) = VNull -> fst (listTools p) = Ok [navigateTool].
Proof. intros Hp. unfold listTools, mbind, M_bind, gets. simpl. by rewrite Hp. Qed.

Lemma listTools_domain (d : Domain) (p : Process) :
  currentDomain (state p) = VStr (domainId d) ->
  fst (listTools p) = Ok (backTool :: registeredTools d).
Proof.
  intros Hp. unfold listTools, mbind, M_bind, gets. simpl. rewrite Hp.
  by rewrite getDomainTools_registered.
Qed.

(** C3: list-tools in a fresh process shows the navigation tool alone;
    after navigate(d), from any process, it shows the back tool followed by
    the tools of [d] in table order; after a back() it shows the
    navigation tool alone again. *)
Theorem navigation_round_trip :
  (forall key installed r,
     fst (listTools (freshProcess key installed r)) = Ok [navigateTool]) /\
  (forall d p,
     fst (listTools (step p (navigate d))) = Ok (backTool :: registeredTools d) /\
     fst (listTools (step (step p (navigate d)) back)) = Ok [navigateTool]).
Proof.
  split.
  - intros key installed r. by apply listTools_root.
  - intros d p. split.
    + apply listTools_domain. by rewrite step_navigate.
    + apply listTools_root. by rewrite step_back.
Qed.

(** No tool of one domain's table has the name of the back tool or of a
    tool of another domain's table. *)
Lemma tables_disjoint (A B : Domain) (t : Tool.t) :
  A <> B -> t ∈ registeredTools A ->
  Tool.name t ∉ map Tool.name (backTool :: registeredTools B).
Proof.
  intros HAB Ht.
  destruct A, B; try (by destruct HAB); cbn [registeredTools] in Ht;
    unfold companyTools, contactTools, productTools, opportunityTools, quoteTools in Ht;
    repeat (apply elem_of_cons in Ht as [->|Ht]);
    try (by apply elem_of_nil in Ht);
    apply (bool_decide_unpack _); vm_compute; exact I.
Qed.

(** C8: navigate(A) and then navigate(B), for two different domains, leaves
    the session in domain B: list-tools shows the back tool followed by
    the tools of [B], and no tool of [A] is among them. *)
Theorem navigate_switch (A B : Domain) (p : Process) :
  A <> B ->
  let p2 := run [navigate A; navigate B] p in
  currentDomain (state p2) = VStr (domainId B) /\
  fst (listTools p2) = Ok (backTool :: registeredTools B) /\
  (forall t, t ∈ registeredTools A -> Tool.name t ∉ visibleNames p2).
Proof.
  intros HAB p2.
  assert (Hp2 : currentDomain (state p2) = VStr (domainId B)).
  { unfold p2, run. cbn [fold_left]. by rewrite !step_navigate. }
  split; [exact Hp2|]. split; [by apply listTools_domain|].
  intros t Ht. unfold visibleNames. rewrite (listTools_domain B) by done.
  by apply (tables_disjoint A B).
Qed.

(** C9 as amended: a navigate(d) call sets [currentDomain] to [d] and
    answers with a success envelope whose text lists the names of the tools
    of [d], joined with a comma and a space, in table order; these are the
    names list-tools shows from then on except the back tool's. *)
Theorem navigate_summary (d : Domain) (p : Process) :
  let '(envelope, p') :=
    callTool "salesbuildr_navigate" (Some {[ "domain" := VStr (domainId d) ]}) p in
  currentDomain (state p') = VStr (domainId d) /\
  envelope =
    {| content := [ {| type := "text";
                       text := "Navigated to " +:+ domainId d
                               +:+ " domain. Available tools: "
                               +:+ String.concat ", " (map Tool.name (registeredTools d)) |} ];
       isError := None |} /\
  visibleNames p' = "salesbuildr_back" :: map Tool.name (registeredTools d).
Proof.
  rewrite (callTool_navigate _ d) by apply lookup_singleton_eq.
  split; [done|]. split; [done|].
  unfold visibleNames. by rewrite (listTools_domain d).
Qed.

(** ** The session-state invariant *)

Lemma prop_registered (a : object) (k : string) :
  registered (prop a k) = true -> exists d, a !! k = Some (VStr (domainId d)).
Proof.
  intros Hr. destruct (registered_inv _ Hr) as [d Hd]. exists d.
  unfold prop in Hd. destruct (a !! k) as [v|]; simpl in Hd; [by rewrite Hd|discriminate].
Qed.

Lemma step_valid (r : Request) (p : Process) :
  conforming r = true ->
  validDomain (currentDomain (state p)) = true ->
  validDomain (currentDomain (state (step p r))) = true.
Proof.
  intros Hr Hp. destruct r as [|name args]; cbn [step].
  - by rewrite listTools_process.
  - destruct (decide (name = "salesbuildr_navigate")) as [->|Hnav].
    + destruct args as [a|]; [|exact Hp].
      cbn [conforming] in Hr. rewrite decide_True in Hr by done.
      destruct (prop_registered _ _ Hr) as [d Hd].
      rewrite (callTool_navigate a d) by done. apply validDomain_domainId.
    + destruct (decide (name = "salesbuildr_back")) as [->|Hback].
      * by rewrite callTool_back.
      * rewrite callTool_process.
        by rewrite (oblivious_frame _ _ (oblivious_callToolBody name args Hnav Hback)).
Qed.

(** C1 as amended: along every sequence of requests in which each
    navigate call that has arguments names a registered domain,
    [currentDomain] stays [null] or a registered domain. *)
Theorem currentDomain_invariant (rs : list Request) (p : Process) :
  validDomain (currentDomain (state p)) = true ->
  forallb conforming rs = true ->
  validDomain (currentDomain (state (run rs p))) = true.
Proof.
  revert p. induction rs as [|r rs IH]; intros p Hp Hrs; [exact Hp|].
  cbn [forallb] in Hrs. apply andb_prop in Hrs as [Hr Hrs].
  unfold run. cbn [fold_left]. apply IH; [|exact Hrs].
  by apply step_valid.
Qed.

(** ** The shape of the router's answers *)

(** Runs a handler body symbolically: the outcome of [getClient()], then
    of the upstream call, then the returned envelope. *)
Ltac run_handler :=
  unfold mbind, M_bind;
  match goal with
  | |- context [getClient ?p] => destruct (getClient p) as [[?|?] ?]
  end;
  cbn beta iota;
  try match goal with
      | |- context [invoke ?c ?u ?p] => destruct (invoke c u p) as [[?|?] ?]
      end;
  cbn beta iota;
  first [ discriminate | intros [= <- <-]; eauto ].

(** A known tool that runs to its end answers with a success envelope. *)
Lemma known_ok (name : string) (args : option object) (p p' : Process) (e : Envelope) :
  name ∈ knownNames ->
  callToolBody name args p = (Ok e, p') ->
  exists s, e = textEnvelope s.
Proof.
  intros Hname. unfold knownNames in Hname. cbn in Hname.
  repeat (apply elem_of_cons in Hname as [->|Hname]);
    try (by apply elem_of_nil in Hname).
  - unfold callToolBody. rewrite decide_True by done.
    destruct args as [a|]; [|discriminate].
    unfold mbind, M_bind, setCurrentDomain, modify. cbn beta iota zeta.
    destruct (getDomainTools (prop a "domain")); [|discriminate].
    intros [= <- <-]. eauto.
  - unfold callToolBody. simpl. intros [= <- <-]. eauto.
  - rewrite (route_domain companies) by done. simpl. unfold handleCompanyTool. simpl. run_handler.
  - rewrite (route_domain companies) by done. simpl. unfold handleCompanyTool. simpl. run_handler.
  - rewrite (route_domain companies) by done. simpl. unfold handleCompanyTool. simpl. run_handler.
  - rewrite (route_domain companies) by done. simpl. unfold handleCompanyTool. simpl. run_handler.
  - rewrite (route_domain companies) by done. simpl. unfold handleCompanyTool. simpl. run_handler.
  - rewrite (route_domain contacts) by done. simpl. unfold handleContactTool. simpl. run_handler.
  - rewrite (route_domain contacts) by done. simpl. unfold handleContactTool. simpl. run_handler.
  - rewrite (route_domain contacts) by done. simpl. unfold handleContactTool. simpl. run_handler.
  - rewrite (route_domain contacts) by done. simpl. unfold handleContactTool. simpl. run_handler.
  - rewrite (route_domain contacts) by done. simpl. unfold handleContactTool. simpl. run_handler.
  - rewrite (route_domain products) by done. simpl. unfold handleProductTool. simpl. run_handler.
  - rewrite (route_domain products) by done. simpl. unfold handleProductTool. simpl. run_handler.
  - rewrite (route_domain opportunities) by done. simpl. unfold handleOpportunityTool. simpl. run_handler.
  - rewrite (route_domain opportunities) by done. simpl. unfold handleOpportunityTool. simpl. run_handler.
  - rewrite (route_domain opportunities) by done. simpl. unfold handleOpportunityTool. simpl. run_handler.
  - rewrite (route_domain opportunities) by done. simpl. unfold handleOpportunityTool. simpl. run_handler.
  - rewrite (route_domain quotes) by done. simpl. unfold handleQuoteTool. simpl. run_handler.
  - rewrite (route_domain quotes) by done. simpl. unfold handleQuoteTool. simpl. run_handler.
  - rewrite (route_domain quotes) by done. simpl. unfold handleQuoteTool. simpl. run_handler.
Qed.

(** Runs a handler body to its default branch, given that the name is
    none of the known ones. *)
Ltac default_branch Hne :=
  unfold mbind at 1; unfold M_bind at 1;
  match goal with
  | |- context [getClient ?p] => destruct (getClient p) as [[?|?] ?]
  end;
  cbn beta iota; [|discriminate];
  rewrite !decide_False by (apply Hne; reflexivity);
  intros [= <- <-]; eauto.

Lemma known_name (name n : string) :
  name ∉ knownNames -> bool_decide (n ∈ knownNames) = true -> name <> n.
Proof. intros Hname Hn%bool_decide_eq_true_1 ->. by apply Hname. Qed.

(** An unknown tool is answered with an error envelope, by the handler's
    default branch when the name has a domain's prefix and by the router
    otherwise. *)
Lemma unknown_ok (name : string) (args : option object) (p p' : Process) (e : Envelope) :
  name ∉ knownNames ->
  callToolBody name args p = (Ok e, p') ->
  exists s, e = errorEnvelope s.
Proof.
  intros Hname.
  pose proof (fun n => known_name name n Hname) as Hne.
  destruct (String.prefix (domainPrefix companies) name) eqn:E1.
  { rewrite (route_domain companies) by done. simpl. unfold handleCompanyTool. default_branch Hne. }
  destruct (String.prefix (domainPrefix contacts) name) eqn:E2.
  { rewrite (route_domain contacts) by done. simpl. unfold handleContactTool. default_branch Hne. }
  destruct (String.prefix (domainPrefix products) name) eqn:E3.
  { rewrite (route_domain products) by done. simpl. unfold handleProductTool. default_branch Hne. }
  destruct (String.prefix (domainPrefix opportunities) name) eqn:E4.
  { rewrite (route_domain opportunities) by done. simpl. unfold handleOpportunityTool. default_branch Hne. }
  destruct (String.prefix (domainPrefix quotes) name) eqn:E5.
  { rewrite (route_domain quotes) by done. simpl. unfold handleQuoteTool. default_branch Hne. }
  rewrite route_unknown; [intros [= <- <-]; eauto | by apply Hne | by apply Hne |].
  by intros [].
Qed.

(** C2: the router is total, so it always answers with an envelope and
    nothing escapes it.  The envelope has exactly one content block, of
    type text.  When the [try] body throws, [isError] is [true] and the
    text is the failure's message after the word Error; when an unknown
    tool or verb is answered, [isError] is [true] as well; when a known
    tool runs to its end, [isError] is absent.  It is never [false]. *)
Theorem callTool_envelope (name : string) (args : option object) (p : Process) :
  let envelope := fst (callTool name args p) in
  (exists s, content envelope = [ {| type := "text"; text := s |} ]) /\
  isError envelope <> Some false /\
  match fst (callToolBody name args p) with
  | Throw e =>
      isError envelope = Some true /\
      content envelope = [ {| type := "text"; text := "Error: " +:+ errorMessage e |} ]
  | Ok returned =>
      envelope = returned /\
      isError envelope = if bool_decide (name ∈ knownNames) then None else Some true
  end.
Proof.
  unfold callTool.
  destruct (callToolBody name args p) as [[e|er] p'] eqn:Hbody; cbn [fst].
  - case_bool_decide as Hname.
    + destruct (known_ok _ _ _ _ _ Hname Hbody) as [s ->]. simpl. eauto.
    + destruct (unknown_ok _ _ _ _ _ Hname Hbody) as [s ->]. simpl. eauto.
  - simpl. eauto.
Qed.

End Properties.

(** * Further properties of the client accessor, the handlers and the HTTP shell *)

#[local] Set Warnings "-clear-no-such-hyp".

Section FurtherProperties.
Context `{JsRuntime} `{Upstream}.

(** ** utils/client.ts *)

Lemma getClient_ok_memo (p p' : Process) (c : SalesbuildrClient) :
  getClient p = (Ok c, p') -> _client p' = Some c.
Proof.
  unfold getClient, getCredentials, mbind, M_bind, gets, setClient, modify, throw. simpl.
  destruct (_client p) as [c0|] eqn:Hc; [by intros [= <- <-]|].
  destruct (SALESBUILDR_API_KEY p) as [k|]; [|discriminate].
  case_decide; [discriminate|]. simpl.
  destruct (packageInstalled p); [|discriminate].
  by intros [= <- <-].
Qed.

Lemma getClient_memo_hit (q : Process) (c : SalesbuildrClient) :
  _client q = Some c -> getClient q = (Ok c, q).
Proof.
  intros Hq. unfold getClient, mbind, M_bind, gets. simpl. by rewrite Hq.
Qed.

(** X1: once [getClient] has resolved, every later [getClient] resolves to
    the same client and changes nothing, whatever the API key and the
    package are by then, as long as [_client] was not reset. *)
Theorem getClient_memoised (p p' q : Process) (c : SalesbuildrClient) :
  getClient p = (Ok c, p') ->
  _client q = _client p' ->
  getClient q = (Ok c, q).
Proof.
  intros Hp Hq. apply getClient_memo_hit.
  rewrite Hq. by apply (getClient_ok_memo p).
Qed.

(** X2: a failing [getClient] changes nothing and memoises nothing, so the
    next call tries again.  It fails with the credentials message when the
    key is unset or empty (whether or not the package is there), and with
    the installation message when the key is set and the package cannot be
    loaded. *)
Theorem getClient_failure (p p' : Process) (e : thrown) :
  getClient p = (Throw e, p') ->
  p' = p /\ _client p = None /\
  ((orElse (SALESBUILDR_API_KEY p) "" = "" /\
    e = JsError "SALESBUILDR_API_KEY environment variable is required. Set it to your SalesBuildr API key from your account settings.")
   \/ (orElse (SALESBUILDR_API_KEY p) "" <> "" /\ packageInstalled p = false /\
       e = JsError "@wyre-technology/node-salesbuildr is not installed. Install it with: npm install @wyre-technology/node-salesbuildr")).
Proof.
  unfold getClient, getCredentials, mbind, M_bind, gets, setClient, modify, throw, orElse.
  simpl.
  destruct (_client p) as [c0|]; [discriminate|].
  destruct (SALESBUILDR_API_KEY p) as [k|]; [|intros [= <- <-]; naive_solver].
  case_decide as Hk; [intros [= <- <-]; naive_solver|]. simpl.
  destruct (packageInstalled p); [discriminate|].
  intros [= <- <-]. naive_solver.
Qed.

Lemma clientAvailable_effectiveKey (p : Process) :
  clientAvailable p = true <-> exists k, effectiveKey p = Some k.
Proof.
  unfold clientAvailable, effectiveKey.
  destruct (_client p) as [c|]; [split; eauto|].
  destruct (SALESBUILDR_API_KEY p) as [k|]; [|split; [discriminate|by intros [? ?]]].
  case_decide as Hk.
  - rewrite bool_decide_eq_true_2 by done. split; [discriminate|by intros [? ?]].
  - rewrite bool_decide_eq_false_2 by done. simpl.
    destruct (packageInstalled p); split; eauto; try discriminate. by intros [? ?].
Qed.

(** What [getClient] does when a key is in effect. *)
Lemma getClient_effective (p : Process) (k : string) :
  effectiveKey p = Some k ->
  exists p1, getClient p = (Ok {| apiKey := k |}, p1) /\
             state p1 = state p /\ remote p1 = remote p /\ journal p1 = journal p /\
             _client p1 = Some {| apiKey := k |}.
Proof.
  unfold effectiveKey, getClient, getCredentials, mbind, M_bind, gets, setClient, modify,
    throw. simpl.
  destruct (_client p) as [[k0]|] eqn:Hc.
  - intros [= <-]. by exists p.
  - destruct (SALESBUILDR_API_KEY p) as [k1|]; [|discriminate].
    case_decide; [discriminate|]. simpl.
    destruct (packageInstalled p); [|discriminate].
    intros [= <-]. eauto 10.
Qed.

Lemma getClient_unavailable (p : Process) :
  clientAvailable p = false -> exists e, getClient p = (Throw e, p).
Proof.
  intros Hav. destruct (getClient_cases p) as [[Hav' _]|[_ He]]; [congruence|done].
Qed.

(** ** index.ts: the HTTP shell *)

Lemma isGatewayMode_true (AUTH_MODE : option string) :
  isGatewayMode AUTH_MODE = true <-> AUTH_MODE = Some "gateway".
Proof.
  unfold isGatewayMode, authMode, orElse. rewrite bool_decide_eq_true.
  destruct AUTH_MODE as [s|]; [|split; discriminate].
  case_decide as Hs; [subst; split; discriminate|].
  split; [by intros ->|by intros [= ->]].
Qed.


(** X4: in gateway mode a /mcp request with a non-empty key header, in
    whatever process it arrives (a client memoised for another key
    included), sets the environment key to the header's value and drops
    the memoised client, so that the next [getClient] builds a client for
    that key when the package is installed. *)
Theorem gateway_request_rebinds_client (timestamp k : string) (p : Process) :
  k <> "" ->
  let p1 := snd (requestListener (Some "gateway") timestamp
                   {| pathname := "/mcp"; x_salesbuildr_api_key := Some k |} p) in
  SALESBUILDR_API_KEY p1 = Some k /\
  _client p1 = None /\
  effectiveKey p1 = (if packageInstalled p then Some k else None) /\
  (packageInstalled p = true ->
   exists p2, getClient p1 = (Ok {| apiKey := k |}, p2) /\
              _client p2 = Some {| apiKey := k |}).
Proof.
  intros Hk p1.
  assert (Hp1 : p1 = {| state := state p; _client := None; SALESBUILDR_API_KEY := Some k;
                        packageInstalled := packageInstalled p; remote := remote p;
                        journal := journal p |}).
  { unfold p1, requestListener. simpl. by rewrite decide_False by done. }
  assert (He : effectiveKey p1 = if packageInstalled p then Some k else None).
  { rewrite Hp1. unfold effectiveKey. simpl. by rewrite decide_False by done. }
  split; [by rewrite Hp1|]. split; [by rewrite Hp1|]. split; [exact He|].
  intros Hi. rewrite Hi in He.
  destruct (getClient_effective p1 k He) as (p2 & Hg & _ & _ & _ & Hc). eauto.
Qed.


(** ** The shape of a handler

    Whatever the name, a handler awaits [getClient()] and then either makes
    one call on its own resource and builds the answer from the result (a
    tool of its table), or answers that the tool is unknown (any other
    name). *)

Ltac known_branch :=
  left; split; [apply (bool_decide_unpack _); vm_compute; exact I|];
  refine (ex_intro _ _ (ex_intro _ _ (conj _ (conj _ (conj _ (conj _ _))))));
  [| | | |reflexivity]; [reflexivity|reflexivity| |];
  first [ by intros _ v | by intros Hm; discriminate Hm | by intros Hm; destruct Hm ].

Ltac unknown_branch :=
  right; split;
  [ intros Hin; cbn in Hin;
    repeat (apply elem_of_cons in Hin as [->|Hin]); try done;
    by apply elem_of_nil in Hin
  | intros p;
    unfold handleCompanyTool, handleContactTool, handleProductTool,
      handleOpportunityTool, handleQuoteTool, mbind, M_bind;
    destruct (getClient p) as [[?|?] ?]; [|reflexivity];
    by rewrite !decide_False by done ].

Lemma handler_shape (d : Domain) (name : string) (args : object) :
  (name ∈ map Tool.name (registeredTools d) /\
   exists c k,
     resource c = d /\
     name = toolName d (verbOf (method c)) /\
     (method c <> MDelete -> forall v, k v = textEnvelope (JSON_stringify v)) /\
     (method c = MDelete ->
      forall v, k v = textEnvelope (deletedNoun d +:+ " " +:+ ToString (prop args "id")
                                    +:+ " deleted successfully.")) /\
     domainHandler d name args = (client ← getClient; r ← invoke client c; mret (k r)))
  \/ ((name ∉ map Tool.name (registeredTools d)) /\
      forall p, domainHandler d name args p =
                (client ← getClient;
                 mret (errorEnvelope ("Unknown " +:+ handlerNoun d +:+ " tool: " +:+ name))) p).
Proof.
  destruct d; simpl domainHandler.
  - destruct (decide (name = "salesbuildr_companies_list")) as [->|H1]; [known_branch|].
    destruct (decide (name = "salesbuildr_companies_get")) as [->|H2]; [known_branch|].
    destruct (decide (name = "salesbuildr_companies_create")) as [->|H3]; [known_branch|].
    destruct (decide (name = "salesbuildr_companies_update")) as [->|H4]; [known_branch|].
    destruct (decide (name = "salesbuildr_companies_delete")) as [->|H5]; [known_branch|].
    unknown_branch.
  - destruct (decide (name = "salesbuildr_contacts_list")) as [->|H1]; [known_branch|].
    destruct (decide (name = "salesbuildr_contacts_get")) as [->|H2]; [known_branch|].
    destruct (decide (name = "salesbuildr_contacts_create")) as [->|H3]; [known_branch|].
    destruct (decide (name = "salesbuildr_contacts_update")) as [->|H4]; [known_branch|].
    destruct (decide (name = "salesbuildr_contacts_delete")) as [->|H5]; [known_branch|].
    unknown_branch.
  - destruct (decide (name = "salesbuildr_products_list")) as [->|H1]; [known_branch|].
    destruct (decide (name = "salesbuildr_products_get")) as [->|H2]; [known_branch|].
    unknown_branch.
  - destruct (decide (name = "salesbuildr_opportunities_list")) as [->|H1]; [known_branch|].
    destruct (decide (name = "salesbuildr_opportunities_get")) as [->|H2]; [known_branch|].
    destruct (decide (name = "salesbuildr_opportunities_create")) as [->|H3]; [known_branch|].
    destruct (decide (name = "salesbuildr_opportunities_update")) as [->|H4]; [known_branch|].
    unknown_branch.
  - destruct (decide (name = "salesbuildr_quotes_list")) as [->|H1]; [known_branch|].
    destruct (decide (name = "salesbuildr_quotes_get")) as [->|H2]; [known_branch|].
    destruct (decide (name = "salesbuildr_quotes_create")) as [->|H3]; [known_branch|].
    unknown_branch.
Qed.

(** ** index.ts: navigation, whatever the arguments *)

Lemma getDomainTools_is_Some (v : value) :
  registered v = true <-> exists tools, getDomainTools v = Some tools.
Proof.
  destruct v as [| | | |s| |]; simpl; try (split; [discriminate|by intros [? ?]]).
  repeat (destruct (decide (s = _)) as [->|?]; [split; [eauto|reflexivity]|]).
  rewrite bool_decide_eq_false_2; [split; [discriminate|by intros [? ?]]|].
  cbn. set_solver.
Qed.

(** X6: a navigate call without arguments fails in the destructuring and
    changes nothing.  With arguments it stores their [domain] property in
    [currentDomain] as it is, missing or unregistered values included,
    touches nothing else, and answers with a success envelope exactly when
    the value is a registered domain. *)
Theorem navigate_outcome (args : option object) (p : Process) :
  match args with
  | None =>
      callTool "salesbuildr_navigate" None p =
        (errorEnvelope "Error: Cannot destructure property 'domain' of 'args' as it is undefined.",
         p)
  | Some a =>
      snd (callTool "salesbuildr_navigate" (Some a) p)
        = withCurrentDomain (prop a "domain") p /\
      isError (fst (callTool "salesbuildr_navigate" (Some a) p))
        = (if registered (prop a "domain") then None else Some true)
  end.
Proof.
  destruct args as [a|]; [|reflexivity].
  unfold callTool, callToolBody. rewrite decide_True by done. cbv zeta.
  unfold mbind, M_bind, setCurrentDomain, modify.
  pose proof (getDomainTools_is_Some (prop a "domain")) as Hreg.
  destruct (getDomainTools (prop a "domain")) as [tools|]; simpl.
  - split; [reflexivity|]. by rewrite (proj2 Hreg) by eauto.
  - split; [reflexivity|].
    destruct (registered (prop a "domain")); [|reflexivity].
    by destruct (proj1 Hreg eq_refl).
Qed.

(** X7: list-tools never changes the process.  It answers exactly when
    [currentDomain] is [null] or a registered domain, with at most six
    tools, all of different names; in every other state it throws. *)
Theorem listTools_answers_iff_valid (p : Process) :
  snd (listTools p) = p /\
  match fst (listTools p) with
  | Ok tools =>
      validDomain (currentDomain (state p)) = true /\
      length tools <= 6 /\
      NoDup (map Tool.name tools)
  | Throw _ => validDomain (currentDomain (state p)) = false
  end.
Proof.
  split; [apply listTools_process|].
  unfold listTools, mbind, M_bind, gets. simpl.
  destruct (currentDomain (state p)) as [| | | |s| |]; simpl; try done.
  - split; [done|]. split; [lia|]. apply (bool_decide_unpack _). vm_compute. exact I.
  - repeat (destruct (decide (s = _)) as [->|?];
            [simpl; split; [reflexivity|]; split; [lia|];
             apply (bool_decide_unpack _); vm_compute; exact I|]).
    simpl. apply bool_decide_eq_false_2. cbn. set_solver.
Qed.

Lemma step_other (r : Request) (p : Process) :
  isNavigation r = false -> state (step p r) = state p.
Proof.
  destruct r as [|name args]; cbn [step isNavigation].
  - intros _. by rewrite listTools_process.
  - intros Hn. apply orb_false_elim in Hn as [Hnav Hback].
    apply bool_decide_eq_false_1 in Hnav. apply bool_decide_eq_false_1 in Hback.
    rewrite callTool_process.
    by rewrite (oblivious_frame _ _ (oblivious_callToolBody name args Hnav Hback)).
Qed.

Lemma run_other (rs : list Request) (p : Process) :
  forallb (fun r => negb (isNavigation r)) rs = true -> state (run rs p) = state p.
Proof.
  revert p. induction rs as [|r rs IH]; intros p Hrs; [reflexivity|].
  cbn [forallb] in Hrs. apply andb_prop in Hrs as [Hr Hrs].
  unfold run. cbn [fold_left]. fold (run rs (step p r)).
  rewrite IH by done. apply step_other. by destruct (isNavigation r).
Qed.

(** X8: the session is where its last navigation left it.  After any
    requests at all, a navigate(d) followed by requests that are neither
    navigate nor back calls (domain tools that succeed or fail, unknown
    tools, list-tools) leaves [currentDomain] at [d]; with a back() in
    place of the navigate it is [null]. *)
Theorem last_navigation_wins (before after : list Request) (d : Domain) (p : Process) :
  forallb (fun r => negb (isNavigation r)) after = true ->
  currentDomain (state (run (before ++ navigate d :: after) p)) = VStr (domainId d) /\
  currentDomain (state (run (before ++ back :: after) p)) = VNull.
Proof.
  intros Hafter. unfold run. rewrite !fold_left_app. cbn [fold_left].
  fold (run after (step (fold_left step before p) (navigate d))).
  fold (run after (step (fold_left step before p) back)).
  rewrite !run_other by done.
  by rewrite step_navigate, step_back.
Qed.

(** ** The domain handlers behind the router *)

Lemma getClient_withClient (p : Process) (key : string) :
  effectiveKey p = Some key -> getClient p = (Ok {| apiKey := key |}, withClient key p).
Proof.
  destruct p as [st [[k0]|] ek inst r j];
    unfold effectiveKey, getClient, getCredentials, mbind, M_bind, gets, setClient, modify,
      throw, withClient; simpl.
  - by intros [= <-].
  - destruct ek as [k1|]; [|discriminate].
    case_decide; [discriminate|]. simpl.
    destruct inst; [|discriminate]. by intros [= <-].
Qed.

(** A handler body that makes the call [c], run with a key in effect. *)
Lemma run_call (c : UpstreamCall) (k : value -> Envelope) (p : Process) (key : string) :
  effectiveKey p = Some key ->
  (client ← getClient; r ← invoke client c; mret (k r)) p =
    (match fst (perform key c (remote p)) with
     | Ok v => Ok (k v)
     | Throw e => Throw e
     end,
     {| state := state p;
        _client := Some {| apiKey := key |};
        SALESBUILDR_API_KEY := SALESBUILDR_API_KEY p;
        packageInstalled := packageInstalled p;
        remote := snd (perform key c (remote p));
        journal := journal p ++ [c] |}).
Proof.
  intros Hkey. unfold mbind at 1. unfold M_bind at 1.
  rewrite (getClient_withClient p key Hkey).
  unfold mbind, M_bind, invoke. simpl.
  by destruct (perform key c (remote p)) as [[v|e] u].
Qed.

Lemma advertised_name (d : Domain) (t : Tool.t) :
  t ∈ registeredTools d -> Tool.name t ∈ map Tool.name (registeredTools d).
Proof. intros Ht. apply list_elem_of_In, in_map, list_elem_of_In, Ht. Qed.

(** X9: every tool of a domain's table is implemented.  Called through the
    router with a client available, it makes exactly one upstream call, on
    the resource of its domain and with the method its name ends in. *)
Theorem advertised_tool_calls_upstream (d : Domain) (t : Tool.t) (args : option object)
    (p : Process) :
  t ∈ registeredTools d ->
  clientAvailable p = true ->
  exists c,
    journal (snd (callTool (Tool.name t) args p)) = journal p ++ [c] /\
    resource c = d /\
    Tool.name t = toolName d (verbOf (method c)).
Proof.
  intros Ht Hav. apply advertised_name in Ht.
  apply clientAvailable_effectiveKey in Hav as [key Hkey].
  destruct (handler_shape d (Tool.name t) (default ∅ args))
    as [(_ & c & k & Hres & Hname & _ & _ & Hh)|[Hno _]]; [|done].
  exists c. split; [|done].
  rewrite callTool_process, (route_domain d) by (rewrite Hname; apply prefix_toolName).
  by rewrite Hh, (run_call c k p key).
Qed.

(** X10: a name with a domain's prefix that is not in the domain's table
    reaches the handler's default branch: no upstream call is made, the
    remote service and the session state are as before, and with a client
    available the answer is the handler's unknown-tool error. *)
Theorem unadvertised_tool_makes_no_call (d : Domain) (name : string) (args : option object)
    (p : Process) :
  String.prefix (domainPrefix d) name = true ->
  name ∉ map Tool.name (registeredTools d) ->
  journal (snd (callTool name args p)) = journal p /\
  remote (snd (callTool name args p)) = remote p /\
  state (snd (callTool name args p)) = state p /\
  (clientAvailable p = true ->
   fst (callTool name args p) =
     {| content := [ {| type := "text";
                        text := "Unknown " +:+ handlerNoun d +:+ " tool: " +:+ name |} ];
        isError := Some true |}).
Proof.
  intros Hpre Hno.
  destruct (handler_shape d name (default ∅ args)) as [[Hin _]|[_ Hh]]; [done|].
  unfold callTool. rewrite (route_domain d), Hh by done.
  unfold mbind, M_bind.
  pose proof (oblivious_frame getClient p oblivious_getClient) as Hs.
  destruct (getClient_cases p) as [(Hav & c & p' & Hg & Hj & Hr)|(Hav & e & Hg)];
    rewrite Hg in Hs |- *; simpl in *.
  - by repeat split.
  - repeat split. congruence.
Qed.

(** X11: without a client every call with a domain's prefix fails alike,
    whatever the verb and the arguments: the answer is the error envelope
    with the message [getClient] threw, no upstream call is made and the
    process is unchanged. *)
Theorem unavailable_client_fails_every_tool (d : Domain) (name : string)
    (args : option object) (p : Process) :
  String.prefix (domainPrefix d) name = true ->
  clientAvailable p = false ->
  exists e,
    getClient p = (Throw e, p) /\
    callTool name args p =
      ({| content := [ {| type := "text"; text := "Error: " +:+ errorMessage e |} ];
          isError := Some true |}, p).
Proof.
  intros Hpre Hav. destruct (getClient_unavailable p Hav) as [e He].
  exists e. split; [done|].
  unfold callTool. rewrite (route_domain d) by done.
  destruct (handler_shape d name (default ∅ args))
    as [(_ & c & k & _ & _ & _ & _ & ->)|[_ ->]];
    unfold mbind, M_bind; by rewrite He.
Qed.


Lemma list_handler (d : Domain) (args : object) :
  domainHandler d (toolName d "list") args =
    (client ← getClient;
     result ← invoke client (Call d MList [VObj (listParams d args)]);
     mret (textEnvelope (JSON_stringify result))).
Proof. destruct d; reflexivity. Qed.

Lemma get_handler (d : Domain) (args : object) :
  domainHandler d (toolName d "get") args =
    (client ← getClient;
     found ← invoke client (Call d MGet [prop args "id"]);
     mret (textEnvelope (JSON_stringify found))).
Proof. destruct d; reflexivity. Qed.

Lemma list_tool_declares (d : Domain) (t : Tool.t) (args : object) :
  t ∈ registeredTools d ->
  Tool.name t = toolName d "list" ->
  dom (listParams d args) = declaredProperties t.
Proof.
  intros Ht Hname.
  destruct d; cbn in Ht;
    repeat (apply elem_of_cons in Ht as [->|Ht]);
    try (by apply elem_of_nil in Ht);
    try discriminate Hname;
    unfold listParams, declaredProperties; cbn [Tool.inputSchema schema];
    rewrite ?lookup_insert_ne by done;
    rewrite ?lookup_insert_eq, ?lookup_singleton_eq; cbn [typed str num];
    by rewrite !dom_insert_L, !dom_singleton_L.
Qed.

Lemma listParams_lookup (d : Domain) (args : object) (k : string) :
  k ∈ dom (listParams d args) -> listParams d args !! k = Some (prop args k).
Proof.
  destruct d; unfold listParams;
    rewrite !dom_insert_L, !dom_singleton_L; set_unfold;
    intros Hk; destruct_or!; subst; reflexivity.
Qed.

(** X13: a list tool forwards exactly the filters its input schema
    declares.  The object it passes upstream has those properties and no
    others, each with the value the caller gave ([undefined] when the
    caller gave none); anything else in the arguments is dropped. *)
Theorem list_forwards_declared_filters (d : Domain) (t : Tool.t) (args : object)
    (p : Process) :
  t ∈ registeredTools d ->
  Tool.name t = toolName d "list" ->
  clientAvailable p = true ->
  exists params : object,
    journal (snd (callTool (Tool.name t) (Some args) p))
      = journal p ++ [Call d MList [VObj params]] /\
    dom params = declaredProperties t /\
    (forall k, k ∈ declaredProperties t -> params !! k = Some (prop args k)).
Proof.
  intros Ht Hname Hav.
  apply clientAvailable_effectiveKey in Hav as [key Hkey].
  exists (listParams d args). split; [|split].
  - rewrite Hname, callTool_process, (route_domain d) by apply prefix_toolName.
    simpl. by rewrite list_handler, (run_call _ _ p key).
  - by apply list_tool_declares.
  - intros k Hk. apply listParams_lookup.
    by rewrite (list_tool_declares d t args).
Qed.

(** X14: a get tool does not check its argument.  It calls upstream get
    with the [id] property of the arguments as it is, which is [undefined]
    when the request has no arguments or no [id]. *)
Theorem get_forwards_id_unchecked (d : Domain) (args : option object) (p : Process) :
  clientAvailable p = true ->
  journal (snd (callTool (toolName d "get") args p))
    = journal p ++ [Call d MGet [prop (default ∅ args) "id"]] /\
  (default ∅ args !! "id" = None ->
   journal (snd (callTool (toolName d "get") args p))
     = journal p ++ [Call d MGet [VUndefined]]).
Proof.
  intros Hav. apply clientAvailable_effectiveKey in Hav as [key Hkey].
  assert (Hj : journal (snd (callTool (toolName d "get") args p))
               = journal p ++ [Call d MGet [prop (default ∅ args) "id"]]).
  { rewrite callTool_process, (route_domain d) by apply prefix_toolName.
    by rewrite get_handler, (run_call _ _ p key). }
  split; [exact Hj|]. intros Hid. rewrite Hj. unfold prop. by rewrite Hid.
Qed.

(** X15: the two start-up settings are matched exactly and fall back
    silently.  HTTP is chosen only when MCP_TRANSPORT is exactly http, the
    key header is demanded only when AUTH_MODE is exactly gateway; unset,
    empty and any other spelling give stdio and the environment key. *)
Theorem mode_selection_exact (v : option string) :
  (main v = HttpTransport <-> v = Some "http") /\
  (main v = StdioTransport <-> v <> Some "http") /\
  (isGatewayMode v = true <-> v = Some "gateway") /\
  (isGatewayMode v = false <-> v <> Some "gateway").
Proof.
  assert (Hm : main v = HttpTransport <-> v = Some "http").
  { unfold main, orElse. destruct v as [s|]; [|split; discriminate].
    destruct (decide (s = "")) as [->|Hs]; [split; discriminate|].
    case_decide as Hh; [subst; done|]. split; [discriminate|by intros [= ->]]. }
  pose proof (isGatewayMode_true v) as Hg.
  split; [exact Hm|]. split; [|split; [exact Hg|]].
  - destruct (main v); naive_solver.
  - destruct (isGatewayMode v); naive_solver.
Qed.

End FurtherProperties.

(** * Worked examples on the sample platform *)

(** The two examples of the specification: [create({id:"x", name:"Acme"})]
    calls upstream create with [{name:"Acme"}], and update with
    [{id:"42", name:"X"}] calls upstream [update("42", {name:"X"})]. *)
Example create_acme :
  journal (snd (@callTool sampleRuntime sampleUpstream "salesbuildr_companies_create"
                  (Some acmeArgs) sampleProcess))
    = [Call companies MCreate [VObj {[ "name" := VStr "Acme" ]}]].
Proof. vm_compute. reflexivity. Qed.

Example update_rename :
  journal (snd (@callTool sampleRuntime sampleUpstream "salesbuildr_contacts_update"
                  (Some renameArgs) sampleProcess))
    = [Call contacts MUpdate [VStr "42"; VObj {[ "name" := VStr "X" ]}]].
Proof. vm_compute. reflexivity. Qed.

(** Failures reach the caller as error envelopes: a rejected upstream call,
    a missing API key, a navigate call without arguments. *)
Example upstream_rejects :
  fst (@callTool sampleRuntime failingUpstream "salesbuildr_products_get"
         (Some {[ "id" := VStr "p1" ]}) (@freshProcess failingUpstream (Some "key") true tt))
    = errorEnvelope "Error: 503 Service Unavailable".
Proof. reflexivity. Qed.

Example missing_key :
  fst (@callTool sampleRuntime sampleUpstream "salesbuildr_products_get"
         (Some {[ "id" := VStr "p1" ]}) (@freshProcess sampleUpstream None true tt))
    = errorEnvelope "Error: SALESBUILDR_API_KEY environment variable is required. Set it to your SalesBuildr API key from your account settings.".
Proof. reflexivity. Qed.

Example navigate_without_arguments :
  @callTool sampleRuntime sampleUpstream "salesbuildr_navigate" None sampleInContacts
    = (errorEnvelope "Error: Cannot destructure property 'domain' of 'args' as it is undefined.",
       sampleInContacts).
Proof. reflexivity. Qed.

(** A domain tool's unknown verb is answered by the handler's default branch. *)
Example unknown_verb :
  fst (@callTool sampleRuntime sampleUpstream "salesbuildr_quotes_update"
         (Some renameArgs) sampleProcess)
    = errorEnvelope "Unknown quote tool: salesbuildr_quotes_update".
Proof. reflexivity. Qed.

(** The scenario of the specification: root, navigate to quotes, list,
    create a quote, back, list. *)
Example quotes_scenario :
  let item : object :=
    {[ "name" := VStr "Firewall"; "quantity" := VNum 1; "unitPrice" := VNum 999 ]} in
  let quote : object := {[ "title" := VStr "Q1"; "items" := VArr [VObj item] ]} in
  let p1 := @step sampleRuntime sampleUpstream sampleProcess (navigate quotes) in
  let p2 := @step sampleRuntime sampleUpstream p1
              (CallToolRequest "salesbuildr_quotes_create" (Some quote)) in
  let p3 := @step sampleRuntime sampleUpstream p2 back in
  visibleNames p1 = ["salesbuildr_back"; "salesbuildr_quotes_list";
                     "salesbuildr_quotes_get"; "salesbuildr_quotes_create"] /\
  journal p2 = [Call quotes MCreate [VObj quote]] /\
  visibleNames p3 = ["salesbuildr_navigate"].
Proof. vm_compute. repeat split. Qed.

(** back() at the root changes nothing, however often it is called. *)
Example back_idempotent :
  @run sampleRuntime sampleUpstream [back; back] sampleProcess = sampleProcess.
Proof. reflexivity. Qed.

(** After a navigate call outside the input contract the list-tools handler
    throws until the next navigate or back. *)
Example listTools_after_unregistered :
  fst (listTools (@run sampleRuntime sampleUpstream [navigateInvoices] sampleProcess))
    = Throw (JsError "Spread syntax requires ...iterable[Symbol.iterator] to be a function").
Proof. reflexivity. Qed.

(** C1 as stated fails: a navigate call with a domain outside the five is
    answered with an error envelope, but the assignment to [currentDomain]
    has already happened and the unregistered string stays there. *)
Lemma currentDomain_keeps_unregistered :
  isError (fst (@callTool sampleRuntime sampleUpstream "salesbuildr_navigate"
                  (Some {[ "domain" := VStr "invoices" ]}) sampleProcess)) = Some true /\
  currentDomain (state (@run sampleRuntime sampleUpstream [navigateInvoices] sampleProcess))
    = VStr "invoices" /\
  validDomain
    (currentDomain (state (@run sampleRuntime sampleUpstream [navigateInvoices] sampleProcess)))
    = false.
Proof. repeat split. Qed.

(** The invariant along the sample session. *)
Lemma currentDomain_invariant_witness :
  validDomain (currentDomain (state sampleProcess)) = true /\
  forallb conforming sampleSession = true /\
  validDomain
    (currentDomain (state (@run sampleRuntime sampleUpstream sampleSession sampleProcess)))
    = true.
Proof.
  split; [reflexivity|]. split; [reflexivity|].
  apply (@currentDomain_invariant sampleRuntime sampleUpstream); reflexivity.
Defined.

(** A companies tool called while positioned in contacts. *)
Lemma callTool_dispatch_witness :
  String.prefix (domainPrefix companies) "salesbuildr_companies_get" = true /\
  @callTool sampleRuntime sampleUpstream "salesbuildr_companies_get"
      (Some {[ "id" := VStr "c1" ]}) sampleInContacts =
    match @domainHandler sampleRuntime sampleUpstream companies "salesbuildr_companies_get"
            (default ∅ (Some {[ "id" := VStr "c1" ]})) sampleInContacts with
    | (Ok envelope, p') => (envelope, p')
    | (Throw e, p') => (errorEnvelope ("Error: " +:+ @errorMessage sampleRuntime e), p')
    end
  /\ forall v,
       @callTool sampleRuntime sampleUpstream "salesbuildr_companies_get"
           (Some {[ "id" := VStr "c1" ]}) (withCurrentDomain v sampleInContacts) =
         (fst (@callTool sampleRuntime sampleUpstream "salesbuildr_companies_get"
                 (Some {[ "id" := VStr "c1" ]}) sampleInContacts),
          withCurrentDomain v
            (snd (@callTool sampleRuntime sampleUpstream "salesbuildr_companies_get"
                    (Some {[ "id" := VStr "c1" ]}) sampleInContacts))).
Proof.
  split; [reflexivity|].
  apply (@callTool_dispatch sampleRuntime sampleUpstream companies). reflexivity.
Defined.

(** The create tool of companies on [{ id: "x", name: "Acme" }]. *)
Lemma create_strips_id_witness :
  hasTool companies "create" = true /\
  exists calls,
    journal (snd (@callTool sampleRuntime sampleUpstream (toolName companies "create")
                    (Some acmeArgs) sampleProcess))
      = journal sampleProcess ++ calls /\
    (clientAvailable sampleProcess = true -> length calls = 1) /\
    forall c, c ∈ calls ->
      exists data : object,
        c = Call companies MCreate [VObj data] /\
        data !! "id" = None /\
        (forall k, k <> "id" -> data !! k = acmeArgs !! k).
Proof.
  split; [reflexivity|].
  apply (@create_strips_id sampleRuntime sampleUpstream companies acmeArgs sampleProcess).
  reflexivity.
Defined.

(** The update tool of contacts on [{ id: "42", name: "X" }]. *)
Lemma update_separates_id_witness :
  hasTool contacts "update" = true /\
  renameArgs !! "id" = Some (VStr "42") /\
  exists calls,
    journal (snd (@callTool sampleRuntime sampleUpstream (toolName contacts "update")
                    (Some renameArgs) sampleProcess))
      = journal sampleProcess ++ calls /\
    (clientAvailable sampleProcess = true -> length calls = 1) /\
    forall c, c ∈ calls ->
      exists data : object,
        c = Call contacts MUpdate [VStr "42"; VObj data] /\
        data !! "id" = None /\
        (forall k, k <> "id" -> data !! k = renameArgs !! k).
Proof.
  split; [reflexivity|]. split; [reflexivity|].
  apply (@update_separates_id sampleRuntime sampleUpstream contacts renameArgs (VStr "42")
           sampleProcess); reflexivity.
Defined.

(** A tool of a domain that does not exist, called while in contacts. *)
Lemma callTool_unknown_witness :
  "salesbuildr_invoices_list" <> "salesbuildr_navigate" /\
  "salesbuildr_invoices_list" <> "salesbuildr_back" /\
  (forall d, String.prefix (domainPrefix d) "salesbuildr_invoices_list" = false) /\
  @callTool sampleRuntime sampleUpstream "salesbuildr_invoices_list" None sampleInContacts =
    ({| content := [ {| type := "text";
                        text := "Unknown tool: salesbuildr_invoices_list. Use salesbuildr_navigate to select a domain first." |} ];
        isError := Some true |}, sampleInContacts).
Proof.
  split; [discriminate|]. split; [discriminate|]. split; [by intros []|].
  apply (@callTool_unknown sampleRuntime sampleUpstream "salesbuildr_invoices_list" None
           sampleInContacts); [discriminate | discriminate | by intros []].
Defined.

(** From companies to quotes. *)
Lemma navigate_switch_witness :
  companies <> quotes /\
  currentDomain
    (state (@run sampleRuntime sampleUpstream [navigate companies; navigate quotes] sampleProcess))
    = VStr "quotes" /\
  fst (listTools
         (@run sampleRuntime sampleUpstream [navigate companies; navigate quotes] sampleProcess))
    = Ok (backTool :: quoteTools) /\
  (forall t, t ∈ companyTools ->
     Tool.name t ∉
       visibleNames
         (@run sampleRuntime sampleUpstream [navigate companies; navigate quotes] sampleProcess)).
Proof.
  split; [discriminate|].
  apply (@navigate_switch sampleRuntime sampleUpstream companies quotes sampleProcess).
  discriminate.
Defined.

(** C9 as stated fails: after navigate(products) list-tools shows the back
    tool and the two product tools, and the answer's text names the two
    product tools only. *)
Lemma navigate_summary_omits_back :
  visibleNames
    (snd (@callTool sampleRuntime sampleUpstream "salesbuildr_navigate"
            (Some {[ "domain" := VStr "products" ]}) sampleProcess))
    = ["salesbuildr_back"; "salesbuildr_products_list"; "salesbuildr_products_get"] /\
  fst (@callTool sampleRuntime sampleUpstream "salesbuildr_navigate"
         (Some {[ "domain" := VStr "products" ]}) sampleProcess)
    = textEnvelope "Navigated to products domain. Available tools: salesbuildr_products_list, salesbuildr_products_get" /\
  fst (@callTool sampleRuntime sampleUpstream "salesbuildr_navigate"
         (Some {[ "domain" := VStr "products" ]}) sampleProcess)
    <> textEnvelope
         ("Navigated to products domain. Available tools: "
          +:+ String.concat ", "
                (visibleNames
                   (snd (@callTool sampleRuntime sampleUpstream "salesbuildr_navigate"
                           (Some {[ "domain" := VStr "products" ]}) sampleProcess)))).
Proof.
  split; [reflexivity|]. split; [reflexivity|].
  intros Heq. vm_compute in Heq. discriminate Heq.
Qed.

(** A companies tool called while in contacts leaves the session there. *)
Lemma callTool_frame_witness :
  "salesbuildr_companies_delete" <> "salesbuildr_navigate" /\
  "salesbuildr_companies_delete" <> "salesbuildr_back" /\
  state (snd (@callTool sampleRuntime sampleUpstream "salesbuildr_companies_delete"
                (Some {[ "id" := VStr "c1" ]}) sampleInContacts))
    = state sampleInContacts.
Proof.
  split; [discriminate|]. split; [discriminate|].
  apply (@callTool_frame sampleRuntime sampleUpstream); discriminate.
Defined.

(** * Worked examples for the further properties *)

(** A client built for one key survives a change of the environment key. *)
Lemma getClient_memoised_witness :
  @getClient sampleUpstream sampleProcess
    = (Ok {| apiKey := "key" |}, withClient "key" sampleProcess) /\
  _client rotatedProcess = _client tenantAProcess /\
  @getClient sampleUpstream rotatedProcess = (Ok {| apiKey := "tenant-a" |}, rotatedProcess).
Proof.
  split; [reflexivity|]. split; [reflexivity|].
  apply (@getClient_memoised sampleUpstream tenantAProcess tenantAProcess rotatedProcess);
    reflexivity.
Defined.

(** Without a key [getClient] fails with the credentials message. *)
Lemma getClient_failure_witness :
  @getClient sampleUpstream keylessProcess
    = (Throw (JsError "SALESBUILDR_API_KEY environment variable is required. Set it to your SalesBuildr API key from your account settings."),
       keylessProcess) /\
  _client keylessProcess = None.
Proof.
  split; [reflexivity|].
  apply (@getClient_failure sampleUpstream keylessProcess keylessProcess
           (JsError "SALESBUILDR_API_KEY environment variable is required. Set it to your SalesBuildr API key from your account settings.")).
  reflexivity.
Defined.

(** A request of tenant B arriving while a client of tenant A is memoised. *)
Lemma gateway_request_rebinds_client_witness :
  "tenant-b" <> "" /\
  SALESBUILDR_API_KEY
    (snd (@requestListener sampleUpstream (Some "gateway") "2026-01-01T00:00:00.000Z"
            {| pathname := "/mcp"; x_salesbuildr_api_key := Some "tenant-b" |} tenantAProcess))
    = Some "tenant-b" /\
  _client
    (snd (@requestListener sampleUpstream (Some "gateway") "2026-01-01T00:00:00.000Z"
            {| pathname := "/mcp"; x_salesbuildr_api_key := Some "tenant-b" |} tenantAProcess))
    = None.
Proof.
  split; [discriminate|].
  pose proof (@gateway_request_rebinds_client sampleUpstream "2026-01-01T00:00:00.000Z"
                "tenant-b" tenantAProcess) as Hw.
  split; apply Hw; discriminate.
Defined.

(** After a stray navigate, navigate(quotes) and three other requests. *)
Lemma last_navigation_wins_witness :
  forallb (fun r => negb (isNavigation r)) (snd strayQuotesSession) = true /\
  currentDomain
    (state (@run sampleRuntime sampleUpstream
              (fst strayQuotesSession ++ navigate quotes :: snd strayQuotesSession)
              sampleProcess))
    = VStr "quotes".
Proof.
  split; [reflexivity|].
  apply (@last_navigation_wins sampleRuntime sampleUpstream (fst strayQuotesSession)
           (snd strayQuotesSession) quotes sampleProcess).
  reflexivity.
Defined.

(** The first tool of the products table. *)
Lemma advertised_tool_calls_upstream_witness :
  clientAvailable sampleProcess = true /\
  exists c,
    journal (snd (@callTool sampleRuntime sampleUpstream "salesbuildr_products_list" None
                    sampleProcess))
      = journal sampleProcess ++ [c] /\
    resource c = products /\
    "salesbuildr_products_list" = toolName products (verbOf (method c)).
Proof.
  split; [reflexivity|].
  apply (@advertised_tool_calls_upstream sampleRuntime sampleUpstream products
           (Tool.mk "salesbuildr_products_list"
              "Search and list products in the SalesBuildr catalog. Returns paginated results with product details including name, SKU, pricing, and category."
              (schema {[ "query" := str "Search query to filter products by name, SKU, or category";
                         "from" := num "Starting offset for pagination (default: 0)";
                         "size" := num "Number of results per page (default: 25, max: 100)" ]}
                      None))
           None sampleProcess); [constructor|reflexivity].
Defined.

(** Quotes has no update tool. *)
Lemma unadvertised_tool_makes_no_call_witness :
  String.prefix (domainPrefix quotes) "salesbuildr_quotes_update" = true /\
  ("salesbuildr_quotes_update" ∉ map Tool.name (registeredTools quotes)) /\
  journal (snd (@callTool sampleRuntime sampleUpstream "salesbuildr_quotes_update"
                  (Some renameArgs) sampleProcess))
    = journal sampleProcess.
Proof.
  assert (Hno : "salesbuildr_quotes_update" ∉ map Tool.name (registeredTools quotes))
    by (apply (bool_decide_unpack _); vm_compute; exact I).
  split; [reflexivity|]. split; [exact Hno|].
  apply (@unadvertised_tool_makes_no_call sampleRuntime sampleUpstream quotes
           "salesbuildr_quotes_update" (Some renameArgs) sampleProcess);
    [reflexivity|exact Hno].
Defined.

(** An unknown verb called without a key: the credentials error comes first. *)
Lemma unavailable_client_fails_every_tool_witness :
  String.prefix (domainPrefix quotes) "salesbuildr_quotes_update" = true /\
  clientAvailable keylessProcess = false /\
  exists e,
    @getClient sampleUpstream keylessProcess = (Throw e, keylessProcess) /\
    @callTool sampleRuntime sampleUpstream "salesbuildr_quotes_update" (Some renameArgs)
        keylessProcess
      = ({| content := [ {| type := "text"; text := "Error: " +:+ @errorMessage sampleRuntime e |} ];
            isError := Some true |}, keylessProcess).
Proof.
  split; [reflexivity|]. split; [reflexivity|].
  apply (@unavailable_client_fails_every_tool sampleRuntime sampleUpstream quotes);
    reflexivity.
Defined.


(** Listing contacts with [{ query: "ann", limit: 5 }]. *)
Lemma list_forwards_declared_filters_witness :
  clientAvailable sampleProcess = true /\
  exists params : object,
    journal (snd (@callTool sampleRuntime sampleUpstream "salesbuildr_contacts_list"
                    (Some searchArgs) sampleProcess))
      = journal sampleProcess ++ [Call contacts MList [VObj params]] /\
    dom params = ({[ "query"; "companyId"; "from"; "size" ]} : gset string) /\
    params !! "limit" = None.
Proof.
  split; [reflexivity|].
  destruct (@list_forwards_declared_filters sampleRuntime sampleUpstream contacts
              (Tool.mk "salesbuildr_contacts_list"
                 "Search and list contacts in SalesBuildr. Optionally filter by company. Returns paginated results with contact details."
                 (schema {[ "query" := str "Search query to filter contacts by name or email";
                            "companyId" := str "Filter contacts by company ID";
                            "from" := num "Starting offset for pagination (default: 0)";
                            "size" := num "Number of results per page (default: 25, max: 100)" ]}
                         None))
              searchArgs sampleProcess)
    as (params & Hj & Hdom & Hlook); [constructor|reflexivity|reflexivity|].
  exists params. split; [exact Hj|]. split.
  - rewrite Hdom. vm_compute. reflexivity.
  - apply not_elem_of_dom. rewrite Hdom. apply (bool_decide_unpack _). vm_compute. exact I.
Defined.

(** A get call without arguments. *)
Lemma get_forwards_id_unchecked_witness :
  clientAvailable sampleProcess = true /\
  journal (snd (@callTool sampleRuntime sampleUpstream (toolName opportunities "get") None
                  sampleProcess))
    = journal sampleProcess ++ [Call opportunities MGet [VUndefined]].
Proof.
  split; [reflexivity|].
  apply (@get_forwards_id_unchecked sampleRuntime sampleUpstream opportunities None
           sampleProcess); reflexivity.
Defined.

(** The listener on the sample platform: the health check needs no key
    even in gateway mode, a keyless /mcp request is refused there, and an
    unknown path is a 404. *)
Example health_in_gateway_mode :
  @requestListener sampleUpstream (Some "gateway") "2026-01-01T00:00:00.000Z"
      {| pathname := "/health"; x_salesbuildr_api_key := None |} tenantAProcess
    = (Ok (Respond 200
             (VObj {[ "status" := VStr "ok";
                      "transport" := VStr "http";
                      "authMode" := VStr "gateway";
                      "timestamp" := VStr "2026-01-01T00:00:00.000Z" ]})),
       tenantAProcess).
Proof. reflexivity. Qed.

Example keyless_mcp_in_gateway_mode :
  @requestListener sampleUpstream (Some "gateway") "2026-01-01T00:00:00.000Z"
      {| pathname := "/mcp"; x_salesbuildr_api_key := None |} tenantAProcess
    = (Ok (Respond 401
             (VObj {[ "error" := VStr "Missing credentials";
                      "message" := VStr "Gateway mode requires X-Salesbuildr-API-Key header";
                      "required" := VArr [VStr "X-Salesbuildr-API-Key"] ]})),
       tenantAProcess).
Proof. reflexivity. Qed.

Example unknown_path :
  fst (@requestListener sampleUpstream None "2026-01-01T00:00:00.000Z"
         {| pathname := "/metrics"; x_salesbuildr_api_key := Some "k" |} sampleProcess)
    = Ok (Respond 404
            (VObj {[ "error" := VStr "Not found";
                     "endpoints" := VArr [VStr "/mcp"; VStr "/health"] ]})).
Proof. reflexivity. Qed.
